(** * PhantomConnect: wallet connector, token lister and compression handler

    A shallow embedding of [src/components/copy.tsx].  The component is a
    React function component: its handlers are closures over the state of
    the render they were created in ([walletKey], [tokens], [signature]),
    they talk to the outside (wallet provider, RPC connection, token and
    compression libraries, browser) through calls whose answers the
    component does not control, and they change the component state only
    through the React setters, which take effect at the next render.

    The embedding keeps that shape:
    - every outside call is a constructor of [call], answered by an
      arbitrary [oracle] threaded through a world of any type, so that a
      statement proved here holds whatever the wallet, the network and the
      libraries answer, including when they throw or reject;
    - a handler is a computation in the monad [M], which threads the
      world and the store of token objects, accumulates the trace of
      calls with their answers and propagates thrown errors;
    - the state a render hands to its handlers is an explicit argument,
      and [next_state] replays the setter calls of a trace on it;
    - token records are objects: the token list is a list of references
      into a store, as the checkbox handler writes through one.

    Answers are taken to have the shape their TypeScript types promise
    (the component reads them through [any]); one handler runs at a
    time. *)

From Stdlib Require Import ZArith String List Bool Lia.
From stdpp Require Import base list strings.

Local Open Scope string_scope.
Local Open Scope list_scope.

(** ** Data *)

Record PublicKey := { toBase58 : string }.

Record Keypair := { kp_publicKey : PublicKey; secretKey : string }.

(** [bn.js] big numbers, by value. *)
Definition BN := Z.

(** Errors that travel through [throw] / [catch]. *)
Inductive exn :=
| Error (msg : string)
| TypeError (msg : string).

Inductive result (A : Type) :=
| Ok (a : A)
| Err (e : exn).
Arguments Ok {A} a.
Arguments Err {A} e.

(** [interface TokenInfo] *)
Record TokenInfo := {
  mintAddress : string;
  amount : string;
  selected : bool
}.

(** Token records are JS objects: the token list holds references into a
    store, and [handleCheckboxChange] writes through such a reference. *)
Abbreviation ref := nat (only parsing).
Abbreviation heap := (list TokenInfo) (only parsing).

(** [useState] cells of the component. *)
Record State := {
  walletKey : option PublicKey;
  tokens : list ref;
  signature : option string
}.

(** The arguments of the three [useState] calls. *)
Definition initial_state : State :=
  {| walletKey := None; tokens := []; signature := None |}.

(** The injected wallet handle, [window.solana]. *)
Record Provider := { provider_id : nat; isPhantom : bool }.

Inductive Injection :=
| Absent                    (* ['solana' in window] is false *)
| Nullish                   (* the property is there, its value is null/undefined *)
| Injected (p : Provider).

Record Window := { solana : Injection }.

(** One element of [getParsedTokenAccountsByOwner(...).value]. *)
Record TokenAmount := {
  ta_amount : string;            (* raw integer amount *)
  ta_decimals : nat;
  uiAmountString : string        (* human-readable amount *)
}.

Record ParsedInfo := {
  info_mint : string;
  info_owner : string;
  tokenAmount : TokenAmount
}.

Record TokenAccountEntry := {
  pubkey : PublicKey;
  parsed_info : ParsedInfo       (* [account.data.parsed.info] *)
}.

Inductive TokenAccountsFilter :=
| ByProgramId (programId : PublicKey)
| ByMint (mint : PublicKey).

Definition AccountInfo := string.
Definition TransactionResponse := list string.

(** The compression library's account descriptor. *)
Record CompressedAccount := {
  ca_hash : string;
  ca_amount : BN;
  ca_owner : PublicKey;
  ca_lamports : BN;
  ca_address : option PublicKey;
  ca_data : list nat
}.

Record ParsedTokenAccount := {
  compressedAccount : CompressedAccount;
  parsed : ParsedInfo
}.

Record CompressParams := {
  cp_payer : PublicKey;
  cp_mint : PublicKey;
  cp_owner : PublicKey;
  cp_amount : BN;
  cp_toAddress : PublicKey;
  cp_source : PublicKey
}.

(** A [TransactionInstruction] comes from one of the two builders the
    component uses; the constructor records which.  The arguments of the
    first are kept by position, as the call site passes them; the second
    wraps what the compression library answered. *)
Inductive TransactionInstruction :=
| createAssociatedTokenAccountInstruction (a0 a1 a2 a3 a4 : PublicKey)
| CompressedTokenIx (payload : string).

Record Transaction := {
  instructions : list TransactionInstruction;
  recentBlockhash : option string;
  feePayer : option PublicKey;
  signers : list Keypair
}.

(** [new Transaction().add(ix)] *)
Definition new_Transaction_add (ix : TransactionInstruction) : Transaction :=
  {| instructions := [ix]; recentBlockhash := None; feePayer := None; signers := [] |}.

Definition set_recentBlockhash (b : string) (tx : Transaction) : Transaction :=
  {| instructions := instructions tx; recentBlockhash := Some b;
     feePayer := feePayer tx; signers := signers tx |}.

Definition set_feePayer (k : PublicKey) (tx : Transaction) : Transaction :=
  {| instructions := instructions tx; recentBlockhash := recentBlockhash tx;
     feePayer := Some k; signers := signers tx |}.

Definition set_signers (ks : list Keypair) (tx : Transaction) : Transaction :=
  {| instructions := instructions tx; recentBlockhash := recentBlockhash tx;
     feePayer := feePayer tx; signers := ks |}.

(** Second argument of a console call. *)
Inductive detail :=
| DString (s : string)
| DError (e : exn)
| DLogs (l : option TransactionResponse).

(** ** Outside calls

    The index is the type of the answer; a call that can fail answers a
    [result]. *)
Inductive call : Type -> Type :=
(* browser *)
| WindowOpen (url target : string) : call unit
| Alert (msg : string) : call unit
| ConsoleLog (msg : string) (d : option detail) : call unit
| ConsoleError (msg : string) (d : option detail) : call unit
(* React setters *)
| SetWalletKey (k : option PublicKey) : call unit
| SetTokens (l : list ref) : call unit
| SetSignature (s : option string) : call unit
(* wallet provider *)
| ProviderConnect (p : Provider) : call (result PublicKey)
| ProviderDisconnect (p : Provider) : call (result unit)
| SignAndSendTransaction (p : Provider) (tx : Transaction) : call (result string)
| ProviderOn (p : Provider) (event : string) : call unit
(* RPC connection *)
| GetParsedTokenAccountsByOwner (owner : PublicKey) (f : TokenAccountsFilter)
    : call (result (list TokenAccountEntry))
| GetAccountInfo (address : PublicKey) : call (result (option AccountInfo))
| GetLatestBlockhash : call (result string)
| ConfirmTransaction (sig : string) : call (result unit)
| GetTransaction (sig : string) : call (result (option TransactionResponse))
(* web3.js, spl-token, bn.js, compressed-token *)
| KeypairGenerate : call Keypair
| NewPublicKey (s : string) : call (result PublicKey)
| GetAssociatedTokenAddress (a0 a1 : PublicKey) (allowOwnerOffCurve : bool)
    (a3 a4 : PublicKey) : call (result PublicKey)
| TransactionSign (tx : Transaction) (signer : Keypair) : call (result unit)
| NewBN (s : string) : call (result BN)
| SelectMinCompressedTokenAccountsForTransfer
    (accounts : list ParsedTokenAccount) (transferAmount : BN)
    : call (result (list ParsedTokenAccount))
| CompressedTokenProgram_compress (p : CompressParams) : call (result string).

(** A call together with its answer. *)
Inductive event :=
| Ev {X : Type} (c : call X) (x : X).

Definition trace := list event.

(** ** Replaying the setters *)

Definition apply_setter (s : State) (e : event) : State :=
  match e with
  | Ev c _ =>
      match c with
      | SetWalletKey k =>
          {| walletKey := k; tokens := tokens s; signature := signature s |}
      | SetTokens l =>
          {| walletKey := walletKey s; tokens := l; signature := signature s |}
      | SetSignature g =>
          {| walletKey := walletKey s; tokens := tokens s; signature := g |}
      | _ => s
      end
  end.

(** State of the render that follows a handler whose trace is [t]. *)
Definition next_state (s : State) (t : trace) : State :=
  fold_left apply_setter t s.

(** ** Classifying events *)

(** Calls that leave the page: the wallet provider and the RPC endpoint. *)
Definition is_network (e : event) : bool :=
  match e with
  | Ev c _ =>
      match c with
      | ProviderConnect _ | ProviderDisconnect _ | SignAndSendTransaction _ _
      | GetParsedTokenAccountsByOwner _ _ | GetAccountInfo _ | GetLatestBlockhash
      | ConfirmTransaction _ | GetTransaction _ => true
      | _ => false
      end
  end.

Definition is_setter (e : event) : bool :=
  match e with
  | Ev c _ =>
      match c with
      | SetWalletKey _ | SetTokens _ | SetSignature _ => true
      | _ => false
      end
  end.

Definition is_create_tx (tx : Transaction) : bool :=
  match instructions tx with
  | [createAssociatedTokenAccountInstruction _ _ _ _ _] => true
  | _ => false
  end.

Definition is_compress_tx (tx : Transaction) : bool :=
  match instructions tx with
  | [CompressedTokenIx _] => true
  | _ => false
  end.

(** The creation (resp. compression) transaction handed to the provider. *)
Definition is_create_submit (e : event) : bool :=
  match e with
  | Ev c _ =>
      match c with
      | SignAndSendTransaction _ tx => is_create_tx tx
      | _ => false
      end
  end.

Definition is_compress_submit (e : event) : bool :=
  match e with
  | Ev c _ =>
      match c with
      | SignAndSendTransaction _ tx => is_compress_tx tx
      | _ => false
      end
  end.

(** The compression instruction being built. *)
Definition is_compress_build (e : event) : bool :=
  match e with
  | Ev c _ =>
      match c with
      | CompressedTokenProgram_compress _ => true
      | _ => false
      end
  end.

Definition is_getTransaction (e : event) : bool :=
  match e with
  | Ev c _ =>
      match c with
      | GetTransaction _ => true
      | _ => false
      end
  end.

(** [getAccountInfo] answered [null] (resp. an account). *)
Definition account_missing (e : event) : bool :=
  match e with
  | Ev c x =>
      match c in call X return X -> bool with
      | GetAccountInfo _ =>
          fun x => match x with Ok None => true | _ => false end
      | _ => fun _ => false
      end x
  end.

Definition account_found (e : event) : bool :=
  match e with
  | Ev c x =>
      match c in call X return X -> bool with
      | GetAccountInfo _ =>
          fun x => match x with Ok (Some _) => true | _ => false end
      | _ => fun _ => false
      end x
  end.

(** The compression library's selection answered an empty list. *)
Definition selection_empty (e : event) : bool :=
  match e with
  | Ev c x =>
      match c in call X return X -> bool with
      | SelectMinCompressedTokenAccountsForTransfer _ _ =>
          fun x => match x with Ok [] => true | _ => false end
      | _ => fun _ => false
      end x
  end.

(** The arguments of a selection call, and of a compress call. *)
Definition selection_of (e : event) : option (list ParsedTokenAccount * BN) :=
  match e with
  | Ev c _ =>
      match c with
      | SelectMinCompressedTokenAccountsForTransfer accounts a => Some (accounts, a)
      | _ => None
      end
  end.

Definition compress_of (e : event) : option CompressParams :=
  match e with
  | Ev c _ =>
      match c with
      | CompressedTokenProgram_compress p => Some p
      | _ => None
      end
  end.

(** The calls made while the candidate descriptors are built. *)
Definition is_descriptor_call (e : event) : bool :=
  match e with
  | Ev c _ =>
      match c with
      | NewBN _ | NewPublicKey _ => true
      | _ => false
      end
  end.

(** [e] is the call [new BN(s)] answering [v]. *)
Definition is_BN_parse (s : string) (v : BN) (e : event) : bool :=
  match e with
  | Ev c x =>
      match c in call X return X -> bool with
      | NewBN s' =>
          fun x => match x with
                   | Ok v' => String.eqb s s' && Z.eqb v v'
                   | Err _ => false
                   end
      | _ => fun _ => false
      end x
  end.

(** The two user-facing alerts of [compressTokens], and the console line
    that reports what its [catch] block caught. *)
Definition select_one_alert : event :=
  Ev (Alert "Please select exactly one token to compress.") tt.

Definition failure_alert : event :=
  Ev (Alert "Compression failed. Check the console for details.") tt.

Definition is_caught (err : exn) (e : event) : bool :=
  match e with
  | Ev c _ =>
      match c with
      | ConsoleError "Compression failed:" (Some (DError (Error m))) =>
          match err with
          | Error m' => String.eqb m m'
          | TypeError _ => false
          end
      | _ => false
      end
  end.

(** The calls of the best-effort log lookup in the [catch] block. *)
Definition is_log_fetch (e : event) : bool :=
  match e with
  | Ev c _ =>
      match c with
      | GetTransaction _ | ConsoleError _ _ => true
      | _ => false
      end
  end.

(** The log lookup asks for the transaction with signature [s]. *)
Definition fetches_logs_of (s : string) (e : event) : bool :=
  match e with
  | Ev c _ =>
      match c with
      | GetTransaction s' => String.eqb s s'
      | _ => false
      end
  end.

(** The amounts passed by one event of a trace [t]: a selection call is passed
    the target 10^8 and descriptors whose amounts are the answers of
    [new BN] on the [uiAmountString]s of the accounts the RPC query for
    the mint answered; a compress call is passed the amount 10^8. *)
Definition amounts_as_claimed (t : trace) (e : event) : Prop :=
  (forall accounts a,
      selection_of e = Some (accounts, a) ->
      a = 100000000%Z
      /\ exists owner mint entries,
           In (Ev (GetParsedTokenAccountsByOwner owner (ByMint mint)) (Ok entries)) t
           /\ Forall2
                (fun d acc =>
                   existsb (is_BN_parse (uiAmountString (tokenAmount (parsed_info acc)))
                                        (ca_amount (compressedAccount d))) t = true)
                accounts entries)
  /\ (forall p, compress_of e = Some p -> cp_amount p = 100000000%Z).

(** Whether the record behind [r] is ticked. *)
Definition is_selected (h : heap) (r : ref) : bool :=
  match h !! r with
  | Some t => selected t
  | None => false
  end.

(** What can happen to the mounted component: a click on one of its
    buttons or checkboxes, or an event of the provider it listens to. *)
Inductive action :=
| ClickConnect
| ClickDisconnect
| ClickCheckbox (index : nat)
| ClickCompress
| WalletConnect (publicKey : PublicKey)
| WalletDisconnect
| WalletAccountChange (publicKey : option PublicKey).

Definition is_SetTokens (e : event) : bool :=
  match e with
  | Ev c _ =>
      match c with
      | SetTokens _ => true
      | _ => false
      end
  end.

(** ** The handler monad *)

Section Component.

Variable W : Type.

(** How the outside answers: any function of the call and the world. *)
Variable oracle : forall X : Type, call X -> W -> X * W.

(** Program ids exported by [@solana/spl-token]. *)
Variables TOKEN_PROGRAM_ID ASSOCIATED_TOKEN_PROGRAM_ID : PublicKey.

Definition M (A : Type) : Type := W -> heap -> result A * trace * W * heap.

Definition ret {A} (a : A) : M A :=
  fun w h => (Ok a, [], w, h).

Definition throw {A} (e : exn) : M A :=
  fun w h => (Err e, [], w, h).

Definition bind {A B} (m : M A) (f : A -> M B) : M B :=
  fun w h =>
    match m w h with
    | (Ok a, t1, w1, h1) =>
        match f a w1 h1 with
        | (r, t2, w2, h2) => (r, t1 ++ t2, w2, h2)
        end
    | (Err e, t1, w1, h1) => (Err e, t1, w1, h1)
    end.

(** [try { m } catch (e) { handler e }] *)
Definition try_catch {A} (m : M A) (handler : exn -> M A) : M A :=
  fun w h =>
    match m w h with
    | (Ok a, t1, w1, h1) => (Ok a, t1, w1, h1)
    | (Err e, t1, w1, h1) =>
        match handler e w1 h1 with
        | (r, t2, w2, h2) => (r, t1 ++ t2, w2, h2)
        end
    end.

(** A call that cannot throw. *)
Definition perform {X} (c : call X) : M X :=
  fun w h =>
    match oracle X c w with
    | (x, w1) => (Ok x, [Ev c x], w1, h)
    end.

(** A call that returns or throws (and [await] of one that resolves or
    rejects). *)
Definition await {X} (c : call (result X)) : M X :=
  fun w h =>
    match oracle (result X) c w with
    | (r, w1) => (r, [Ev c r], w1, h)
    end.

(** Object literal: a fresh record in the store. *)
Definition alloc (t : TokenInfo) : M ref :=
  fun w h => (Ok (length h), [], w, h ++ [t]).

(** Reading the fields of the object behind a reference.  A reference
    outside the store does not arise (see [wf_preserved]). *)
Definition load (r : ref) : M TokenInfo :=
  fun w h =>
    match h !! r with
    | Some t => (Ok t, [], w, h)
    | None => (Err (TypeError "dangling reference"), [], w, h)
    end.

(** Assignment to the [selected] field of the object behind [r]. *)
Definition store_selected (r : ref) (b : bool) : M unit :=
  fun w h =>
    match h !! r with
    | Some t =>
        (Ok tt, [], w,
         <[r := {| mintAddress := mintAddress t; amount := amount t; selected := b |}]> h)
    | None => (Err (TypeError "dangling reference"), [], w, h)
    end.

Notation "x <- m ;; k" := (bind m (fun x => k))
  (at level 100, m at next level, k at level 200, right associativity).
Notation "m ;; k" := (bind m (fun _ => k))
  (at level 100, k at level 200, right associativity).

(** [Array.prototype.map] with a callback that has effects. *)
Fixpoint array_map {A B} (f : A -> M B) (l : list A) : M (list B) :=
  match l with
  | [] => ret []
  | a :: l' => b <- f a ;; bs <- array_map f l' ;; ret (b :: bs)
  end.

(** [Array.prototype.filter] with a predicate that reads the store. *)
Fixpoint array_filter {A} (f : A -> M bool) (l : list A) : M (list A) :=
  match l with
  | [] => ret []
  | a :: l' =>
      keep <- f a ;; rest <- array_filter f l' ;;
      ret (if keep then a :: rest else rest)
  end.

(** Truthiness of a [string | null]. *)
Definition truthy (s : option string) : bool :=
  match s with
  | Some s => negb (String.eqb s "")
  | None => false
  end.

(** ** The component's functions *)

(** Detect Phantom wallet provider. *)
Definition getProvider (window : Window) : M (option Provider) :=
  match
    match solana window with
    | Absent => None
    | Nullish => None                       (* [provider?.isPhantom] is undefined *)
    | Injected provider => if isPhantom provider then Some provider else None
    end
  with
  | Some provider => ret (Some provider)
  | None => perform (WindowOpen "https://phantom.app/" "_blank") ;; ret None
  end.

(** Fetch token balances. *)
Definition fetchTokens (publicKey : PublicKey) : M unit :=
  try_catch
    (tokenAccountsList <-
       await (GetParsedTokenAccountsByOwner publicKey (ByProgramId TOKEN_PROGRAM_ID)) ;;
     tokensInfo <-
       array_map (fun tokenAccountInfo =>
               let accountData := parsed_info tokenAccountInfo in
               let mintAddress' := info_mint accountData in
               let amount' := uiAmountString (tokenAmount accountData) in
               alloc {| mintAddress := mintAddress'; amount := amount'; selected := false |})
            tokenAccountsList ;;
     perform (SetTokens tokensInfo))
    (fun error => perform (ConsoleLog "Error fetching tokens:" (Some (DError error)))).

(** Connect to the wallet.  [fetchTokens] is started without [await]; it
    never rejects ([fetchTokens_returns]), so running it in sequence inside
    the [try] block shows the same calls in the same order. *)
Definition connectWallet (window : Window) : M unit :=
  provider <- getProvider window ;;
  match provider with
  | Some provider =>
      try_catch
        (resp_publicKey <- await (ProviderConnect provider) ;;
         perform (SetWalletKey (Some resp_publicKey)) ;;
         perform (ConsoleLog "Connected with publicKey:"
                    (Some (DString (toBase58 resp_publicKey)))) ;;
         fetchTokens resp_publicKey)
        (fun err => perform (ConsoleLog "Connection error:" (Some (DError err))))
  | None => ret tt
  end.

(** Disconnect from the wallet. *)
Definition disconnectWallet (window : Window) : M unit :=
  provider <- getProvider window ;;
  match provider with
  | Some provider =>
      try_catch
        (await (ProviderDisconnect provider) ;;
         perform (SetWalletKey None) ;;
         perform (SetTokens []) ;;
         perform (ConsoleLog "Disconnected" None))
        (fun err => perform (ConsoleLog "Disconnection error:" (Some (DError err))))
  | None => ret tt
  end.

(** Handle checkbox change for selecting a token.  The spread copies the
    array, not the records: the write goes to the record the old array
    refers to as well. *)
Definition handleCheckboxChange (st : State) (index : nat) : M unit :=
  let updatedTokens := tokens st in
  match updatedTokens !! index with
  | None => throw (TypeError "Cannot read properties of undefined (reading 'selected')")
  | Some r =>
      t <- load r ;;
      store_selected r (negb (selected t)) ;;
      perform (SetTokens updatedTokens)
  end.

(** The callback of the [map] over the token accounts of the mint. *)
Definition toParsedAccount (publicKey : PublicKey) (accountInfo : TokenAccountEntry)
  : M ParsedTokenAccount :=
  amount' <- await (NewBN (uiAmountString (tokenAmount (parsed_info accountInfo)))) ;;
  address <- await (NewPublicKey (toBase58 (pubkey accountInfo))) ;;
  ret {| compressedAccount :=
           {| ca_hash := info_mint (parsed_info accountInfo);
              ca_amount := amount';
              ca_owner := publicKey;
              ca_lamports := 1%Z;
              ca_address := Some address;
              ca_data := [] |};
         parsed := parsed_info accountInfo |}.

(** The [catch] block of [compressTokens].  [signature] is the state cell
    of the render the handler belongs to. *)
Definition compressTokens_catch (st : State) (error : exn) : M unit :=
  perform (ConsoleError "Compression failed:" (Some (DError error))) ;;
  try_catch
    (if truthy (signature st) then
       match signature st with
       | Some sig =>
           logs <- await (GetTransaction sig) ;;
           perform (ConsoleError "Transaction logs:" (Some (DLogs logs)))
       | None => ret tt
       end
     else ret tt)
    (fun logError =>
       perform (ConsoleError "Failed to fetch transaction logs:" (Some (DError logError)))) ;;
  perform (Alert "Compression failed. Check the console for details.").

(** The [try] block of [compressTokens]. *)
Definition compressTokens_try (window : Window) (st : State) (selectedToken : ref)
  : M unit :=
  provider <- getProvider window ;;
  match provider, walletKey st with
  | Some provider, Some publicKey =>
      payer <- perform KeypairGenerate ;;
      selectedToken_mintAddress <- (t <- load selectedToken ;; ret (mintAddress t)) ;;
      mint <- await (NewPublicKey selectedToken_mintAddress) ;;
      (* 1. Check if associated token account exists *)
      ata <- await (GetAssociatedTokenAddress mint publicKey false
                      ASSOCIATED_TOKEN_PROGRAM_ID TOKEN_PROGRAM_ID) ;;
      (* 2. Create associated token account if it does not exist *)
      accountInfo <- await (GetAccountInfo ata) ;;
      match accountInfo with
      | None =>
          let createAccountIx :=
            createAssociatedTokenAccountInstruction
              (kp_publicKey payer) publicKey mint
              ASSOCIATED_TOKEN_PROGRAM_ID TOKEN_PROGRAM_ID in
          let transaction := new_Transaction_add createAccountIx in
          blockhash <- await GetLatestBlockhash ;;
          let transaction := set_recentBlockhash blockhash transaction in
          let transaction := set_feePayer (kp_publicKey payer) transaction in
          await (TransactionSign transaction payer) ;;
          let transaction := set_signers [payer] transaction in
          txSignature <- await (SignAndSendTransaction provider transaction) ;;
          await (ConfirmTransaction txSignature) ;;
          perform (ConsoleLog "Created associated token account:"
                     (Some (DString (toBase58 ata))))
      | Some _ => ret tt
      end ;;
      (* 3. Transform token accounts data *)
      tokenAccountsList <- await (GetParsedTokenAccountsByOwner publicKey (ByMint mint)) ;;
      parsedAccounts <- array_map (toParsedAccount publicKey) tokenAccountsList ;;
      let amount' : BN := 100000000%Z in
      inputAccounts <-
        await (SelectMinCompressedTokenAccountsForTransfer parsedAccounts amount') ;;
      match inputAccounts with
      | [] => throw (Error "No input accounts found for compression.")
      | inputAccounts_0 :: _ =>
          match ca_address (compressedAccount inputAccounts_0) with
          | None => throw (Error "No source address found for compression.")
          | Some sourceAddress =>
              sourcePublicKey <- await (NewPublicKey (toBase58 sourceAddress)) ;;
              (* Create compress instruction *)
              payload <-
                await (CompressedTokenProgram_compress
                         {| cp_payer := kp_publicKey payer;
                            cp_mint := mint;
                            cp_owner := publicKey;
                            cp_amount := amount';
                            cp_toAddress := publicKey;
                            cp_source := sourcePublicKey |}) ;;
              let compressIx := CompressedTokenIx payload in
              let transaction := new_Transaction_add compressIx in
              blockhash <- await GetLatestBlockhash ;;
              let transaction := set_recentBlockhash blockhash transaction in
              let transaction := set_feePayer (kp_publicKey payer) transaction in
              await (TransactionSign transaction payer) ;;
              let transaction := set_signers [payer] transaction in
              txSignature <- await (SignAndSendTransaction provider transaction) ;;
              perform (SetSignature (Some txSignature)) ;;
              perform (ConsoleLog "Transaction signature:" (Some (DString txSignature))) ;;
              await (ConfirmTransaction txSignature) ;;
              perform (Alert "Token successfully compressed.")
          end
      end
  | _, _ => throw (Error "Wallet not connected")
  end.

(** Handle compression of selected tokens.  The [match] is the test
    [selectedTokens.length !== 1] followed by [selectedTokens[0]]. *)
Definition compressTokens (window : Window) (st : State) : M unit :=
  selectedTokens <-
    array_filter (fun token => t <- load token ;; ret (selected t)) (tokens st) ;;
  match selectedTokens with
  | [selectedToken] =>
      try_catch (compressTokens_try window st selectedToken) (compressTokens_catch st)
  | _ => perform (Alert "Please select exactly one token to compress.")
  end.

(** The three listeners registered by the mount effect. *)
Definition on_connect (publicKey : PublicKey) : M unit :=
  perform (ConsoleLog "Connected to wallet:" (Some (DString (toBase58 publicKey)))) ;;
  perform (SetWalletKey (Some publicKey)) ;;
  fetchTokens publicKey.

Definition on_disconnect : M unit :=
  perform (ConsoleLog "Disconnected from wallet" None) ;;
  perform (SetWalletKey None) ;;
  perform (SetTokens []).

Definition on_accountChange (publicKey : option PublicKey) : M unit :=
  match publicKey with
  | Some publicKey =>
      perform (ConsoleLog ("Switched to new wallet: " +:+ toBase58 publicKey) None) ;;
      perform (SetWalletKey (Some publicKey)) ;;
      fetchTokens publicKey
  | None =>
      perform (ConsoleLog "Account changed, but no account is currently connected." None)
  end.

(** The mount effect: register the listeners, if Phantom is there. *)
Definition useEffect_mount (window : Window) : M unit :=
  provider <- getProvider window ;;
  match provider with
  | Some provider =>
      perform (ProviderOn provider "connect") ;;
      perform (ProviderOn provider "disconnect") ;;
      perform (ProviderOn provider "accountChange")
  | None => ret tt
  end.

(** The function an action runs, in the render whose state is [st]. *)
Definition handle (a : action) (window : Window) (st : State) : M unit :=
  match a with
  | ClickConnect => connectWallet window
  | ClickDisconnect => disconnectWallet window
  | ClickCheckbox index => handleCheckboxChange st index
  | ClickCompress => compressTokens window st
  | WalletConnect publicKey => on_connect publicKey
  | WalletDisconnect => on_disconnect
  | WalletAccountChange publicKey => on_accountChange publicKey
  end.

(** ** Reading a run *)

Definition outcome_of {A} (x : result A * trace * W * heap) : result A := x.1.1.1.
Definition trace_of {A} (x : result A * trace * W * heap) : trace := x.1.1.2.
Definition world_of {A} (x : result A * trace * W * heap) : W := x.1.2.
Definition heap_of {A} (x : result A * trace * W * heap) : heap := x.2.

(** Stores and states the component goes through, one action after the
    other, from its first render. *)
Inductive reachable : heap -> State -> Prop :=
| reachable_first (h : heap) : reachable h initial_state
| reachable_next (h : heap) (st : State) (a : action) (window : Window) (w : W) :
    reachable h st ->
    reachable (heap_of (handle a window st w h))
              (next_state st (trace_of (handle a window st w h))).

(** The record at position [j] of a token list, through the store. *)
Definition token_at (h : heap) (l : list ref) (j : nat) : option TokenInfo :=
  match l !! j with
  | Some r => h !! r
  | None => None
  end.

(** The records of a token list, in order. *)
Definition records (h : heap) (l : list ref) : list (option TokenInfo) :=
  map (fun r => h !! r) l.

(** Token lists the component can hold: every reference is to a record of
    the store, and no record is listed twice. *)
Definition wf (h : heap) (l : list ref) : Prop :=
  NoDup l /\ Forall (fun r => r < length h) l.

(** The Token Record [fetchTokens] builds from a parsed account. *)
Definition token_of (a : TokenAccountEntry) : TokenInfo :=
  {| mintAddress := info_mint (parsed_info a);
     amount := uiAmountString (tokenAmount (parsed_info a));
     selected := false |}.

End Component.

Arguments M W A : clear implicits.
Arguments ret {W A} a w h.
Arguments throw {W A} e w h.
Arguments bind {W A B} m f w h.
Arguments try_catch {W A} m handler w h.
Arguments perform {W} oracle {X} c w h.
Arguments await {W} oracle {X} c w h.
Arguments alloc {W} t w h.
Arguments load {W} r w h.
Arguments store_selected {W} r b w h.
Arguments array_map {W A B} f l w h.
Arguments array_filter {W A} f l w h.
Arguments getProvider {W} oracle window w h.
Arguments fetchTokens {W} oracle TOKEN_PROGRAM_ID publicKey w h.
Arguments connectWallet {W} oracle TOKEN_PROGRAM_ID window w h.
Arguments disconnectWallet {W} oracle window w h.
Arguments handleCheckboxChange {W} oracle st index w h.
Arguments toParsedAccount {W} oracle publicKey accountInfo w h.
Arguments compressTokens_catch {W} oracle st error w h.
Arguments compressTokens_try {W} oracle TOKEN_PROGRAM_ID ASSOCIATED_TOKEN_PROGRAM_ID
  window st selectedToken w h.
Arguments compressTokens {W} oracle TOKEN_PROGRAM_ID ASSOCIATED_TOKEN_PROGRAM_ID
  window st w h.
Arguments on_connect {W} oracle TOKEN_PROGRAM_ID publicKey w h.
Arguments on_disconnect {W} oracle w h.
Arguments on_accountChange {W} oracle TOKEN_PROGRAM_ID publicKey w h.
Arguments outcome_of {W A} x.
Arguments trace_of {W A} x.
Arguments world_of {W A} x.
Arguments heap_of {W A} x.
Arguments useEffect_mount {W} oracle window w h.
Arguments handle {W} oracle TOKEN_PROGRAM_ID ASSOCIATED_TOKEN_PROGRAM_ID a window st w h.
Arguments reachable {W} oracle TOKEN_PROGRAM_ID ASSOCIATED_TOKEN_PROGRAM_ID h st.

(** ** A scripted outside, to run the handlers on concrete inputs *)

Record Script := {
  s_connect : result PublicKey;
  s_disconnect : result unit;
  s_tokenAccounts : result (list TokenAccountEntry);
  s_accountInfo : result (option AccountInfo);
  s_select : list ParsedTokenAccount -> result (list ParsedTokenAccount);
  s_confirm : string -> result unit;
  s_getTransaction : result (option TransactionResponse)
}.

(** Decimal digits only, as [new BN(str)] reads base 10. *)
Fixpoint parse_digits (acc : Z) (s : string) : result BN :=
  match s with
  | EmptyString => Ok acc
  | String c s' =>
      let n := Ascii.nat_of_ascii c in
      if (48 <=? n)%nat && (n <=? 57)%nat
      then parse_digits (acc * 10 + Z.of_nat (n - 48))%Z s'
      else Err (Error "Invalid character")
  end.

Definition scripted (s : Script) (X : Type) (c : call X) : unit -> X * unit :=
  match c in call X return unit -> X * unit with
  | WindowOpen _ _ | Alert _ | ConsoleLog _ _ | ConsoleError _ _
  | SetWalletKey _ | SetTokens _ | SetSignature _ | ProviderOn _ _ =>
      fun w => (tt, w)
  | ProviderConnect _ => fun w => (s_connect s, w)
  | ProviderDisconnect _ => fun w => (s_disconnect s, w)
  | SignAndSendTransaction _ tx =>
      fun w => (Ok (if is_create_tx tx then "sig-create" else "sig-compress"), w)
  | GetParsedTokenAccountsByOwner _ _ => fun w => (s_tokenAccounts s, w)
  | GetAccountInfo _ => fun w => (s_accountInfo s, w)
  | GetLatestBlockhash => fun w => (Ok "blockhash", w)
  | ConfirmTransaction sig => fun w => (s_confirm s sig, w)
  | GetTransaction _ => fun w => (s_getTransaction s, w)
  | KeypairGenerate =>
      fun w => ({| kp_publicKey := {| toBase58 := "payer" |}; secretKey := "secret" |}, w)
  | NewPublicKey k => fun w => (Ok {| toBase58 := k |}, w)
  | GetAssociatedTokenAddress _ _ _ _ _ => fun w => (Ok {| toBase58 := "ata" |}, w)
  | TransactionSign _ _ => fun w => (Ok tt, w)
  | NewBN str => fun w => (parse_digits 0 str, w)
  | SelectMinCompressedTokenAccountsForTransfer accounts _ => fun w => (s_select s accounts, w)
  | CompressedTokenProgram_compress _ => fun w => (Ok "compress-ix", w)
  end.

Definition TOKEN_PROGRAM : PublicKey :=
  {| toBase58 := "TokenkegQfeZyiNwAJbNbGKPFXCWuBvf9Ss623VQ5DA" |}.
Definition ASSOCIATED_TOKEN_PROGRAM : PublicKey :=
  {| toBase58 := "ATokenGPvbdGVxr1b2hvZbsiqW5xWH25efTNsLJA8knL" |}.

Definition alice : PublicKey := {| toBase58 := "alice" |}.
Definition phantom : Provider := {| provider_id := 0; isPhantom := true |}.
Definition other_wallet : Provider := {| provider_id := 1; isPhantom := false |}.

Definition with_phantom : Window := {| solana := Injected phantom |}.
Definition without_provider : Window := {| solana := Absent |}.

(** Two token accounts of [alice]: 7 units of mint A (6 decimals) and
    250 units of mint B. *)
Definition account_A : TokenAccountEntry :=
  {| pubkey := {| toBase58 := "accA" |};
     parsed_info :=
       {| info_mint := "mintA"; info_owner := "alice";
          tokenAmount :=
            {| ta_amount := "7000000"; ta_decimals := 6; uiAmountString := "7" |} |} |}.

Definition account_B : TokenAccountEntry :=
  {| pubkey := {| toBase58 := "accB" |};
     parsed_info :=
       {| info_mint := "mintB"; info_owner := "alice";
          tokenAmount :=
            {| ta_amount := "250"; ta_decimals := 0; uiAmountString := "250" |} |} |}.

(** Everything succeeds; the selection keeps every candidate. *)
Definition happy : Script :=
  {| s_connect := Ok alice;
     s_disconnect := Ok tt;
     s_tokenAccounts := Ok [account_A; account_B];
     s_accountInfo := Ok None;
     s_select := fun accounts => Ok accounts;
     s_confirm := fun _ => Ok tt;
     s_getTransaction := Ok None |}.

Definition set_tokenAccounts (r : result (list TokenAccountEntry)) (s : Script) : Script :=
  {| s_connect := s_connect s; s_disconnect := s_disconnect s;
     s_tokenAccounts := r; s_accountInfo := s_accountInfo s;
     s_select := s_select s; s_confirm := s_confirm s;
     s_getTransaction := s_getTransaction s |}.

Definition set_accountInfo (r : result (option AccountInfo)) (s : Script) : Script :=
  {| s_connect := s_connect s; s_disconnect := s_disconnect s;
     s_tokenAccounts := s_tokenAccounts s; s_accountInfo := r;
     s_select := s_select s; s_confirm := s_confirm s;
     s_getTransaction := s_getTransaction s |}.

Definition set_disconnect (r : result unit) (s : Script) : Script :=
  {| s_connect := s_connect s; s_disconnect := r;
     s_tokenAccounts := s_tokenAccounts s; s_accountInfo := s_accountInfo s;
     s_select := s_select s; s_confirm := s_confirm s;
     s_getTransaction := s_getTransaction s |}.

Definition set_select (f : list ParsedTokenAccount -> result (list ParsedTokenAccount))
  (s : Script) : Script :=
  {| s_connect := s_connect s; s_disconnect := s_disconnect s;
     s_tokenAccounts := s_tokenAccounts s; s_accountInfo := s_accountInfo s;
     s_select := f; s_confirm := s_confirm s;
     s_getTransaction := s_getTransaction s |}.

Definition set_confirm (f : string -> result unit) (s : Script) : Script :=
  {| s_connect := s_connect s; s_disconnect := s_disconnect s;
     s_tokenAccounts := s_tokenAccounts s; s_accountInfo := s_accountInfo s;
     s_select := s_select s; s_confirm := f;
     s_getTransaction := s_getTransaction s |}.

(** A store of two records, the first one ticked, and the state of a
    connected render listing them. *)
Definition store2 : heap :=
  [ {| mintAddress := "mintA"; amount := "7"; selected := true |};
    {| mintAddress := "mintB"; amount := "250"; selected := false |} ].

Definition connected : State :=
  {| walletKey := Some alice; tokens := [0; 1]; signature := None |}.

(** The confirmation of the compression transaction fails; everything
    before it succeeds. *)
Definition confirm_fails : Script :=
  set_confirm
    (fun sig =>
       if String.eqb sig "sig-compress"
       then Err (Error "Transaction was not confirmed")
       else Ok tt)
    happy.

(** The selection finds nothing to spend. *)
Definition nothing_selected : Script := set_select (fun _ => Ok []) happy.

(** The associated token account is already there. *)
Definition account_exists : Script := set_accountInfo (Ok (Some "ata-data")) happy.

(** The RPC endpoint is down; the wallet refuses to disconnect. *)
Definition rpc_down : Script :=
  set_tokenAccounts (Err (Error "503 Service Unavailable")) happy.

Definition disconnect_refused : Script :=
  set_disconnect (Err (Error "User rejected the request.")) happy.

(** ** More readings of a trace *)

Definition success_alert : event :=
  Ev (Alert "Token successfully compressed.") tt.

Definition is_alert (e : event) : bool :=
  match e with
  | Ev c _ =>
      match c with
      | Alert _ => true
      | _ => false
      end
  end.

(** The alert with message [msg]. *)
Definition shows_alert (msg : string) (e : event) : bool :=
  match e with
  | Ev c _ =>
      match c with
      | Alert m => String.eqb msg m
      | _ => false
      end
  end.

(** The RPC query for token accounts. *)
Definition is_token_query (e : event) : bool :=
  match e with
  | Ev c _ =>
      match c with
      | GetParsedTokenAccountsByOwner _ _ => true
      | _ => false
      end
  end.

Definition is_WindowOpen (e : event) : bool :=
  match e with
  | Ev c _ =>
      match c with
      | WindowOpen _ _ => true
      | _ => false
      end
  end.

(** The provider and the transaction of a hand-over to the provider. *)
Definition submit_of (e : event) : option (Provider * Transaction) :=
  match e with
  | Ev c _ =>
      match c with
      | SignAndSendTransaction p tx => Some (p, tx)
      | _ => None
      end
  end.

(** The compression transaction was handed over and the provider
    returned the signature [s]. *)
Definition compress_submitted (s : string) (e : event) : bool :=
  match e with
  | Ev c x =>
      match c in call X return X -> bool with
      | SignAndSendTransaction _ tx =>
          fun x => match x with
                   | Ok s' => is_compress_tx tx && String.eqb s s'
                   | Err _ => false
                   end
      | _ => fun _ => false
      end x
  end.

(** [confirmTransaction s] returned. *)
Definition confirmed (s : string) (e : event) : bool :=
  match e with
  | Ev c x =>
      match c in call X return X -> bool with
      | ConfirmTransaction s' =>
          fun x => match x with
                   | Ok _ => String.eqb s s'
                   | Err _ => false
                   end
      | _ => fun _ => false
      end x
  end.

(** The outside threw or rejected: the answer of a fallible call is an
    error. *)
Definition is_Err {A} (r : result A) : bool :=
  match r with
  | Ok _ => false
  | Err _ => true
  end.

Definition threw (e : event) : bool :=
  match e with
  | Ev c x =>
      match c in call X return X -> bool with
      | ProviderConnect _ => is_Err
      | ProviderDisconnect _ => is_Err
      | SignAndSendTransaction _ _ => is_Err
      | GetParsedTokenAccountsByOwner _ _ => is_Err
      | GetAccountInfo _ => is_Err
      | GetLatestBlockhash => is_Err
      | ConfirmTransaction _ => is_Err
      | GetTransaction _ => is_Err
      | NewPublicKey _ => is_Err
      | GetAssociatedTokenAddress _ _ _ _ _ => is_Err
      | TransactionSign _ _ => is_Err
      | NewBN _ => is_Err
      | SelectMinCompressedTokenAccountsForTransfer _ _ => is_Err
      | CompressedTokenProgram_compress _ => is_Err
      | _ => fun _ => false
      end x
  end.

(** The transaction and the signer of a [transaction.sign] call. *)
Definition sign_of (e : event) : option (Transaction * Keypair) :=
  match e with
  | Ev c _ =>
      match c with
      | TransactionSign tx signer => Some (tx, signer)
      | _ => None
      end
  end.

(** How a transaction handed to the provider was prepared, and who signs,
    in a run with trace [t] in the window [window].  A hand-over goes to
    the injected Phantom handle; its transaction holds one instruction,
    its blockhash is an answer of [getLatestBlockhash], its fee payer is
    the public key of a keypair generated in the run, and a
    [transaction.sign] call of the run that returned was made with that
    keypair on a transaction of the same instructions, blockhash and fee
    payer.  A [transaction.sign] call is made with a keypair generated in
    the run, on a transaction whose fee payer is that keypair's public
    key. *)
Definition paid_by_ephemeral_key (window : Window) (t : trace) (e : event) : Prop :=
  (forall p tx,
      submit_of e = Some (p, tx) ->
      solana window = Injected p
      /\ length (instructions tx) = 1
      /\ exists payer blockhash signed,
           recentBlockhash tx = Some blockhash
           /\ feePayer tx = Some (kp_publicKey payer)
           /\ In (Ev KeypairGenerate payer) t
           /\ In (Ev GetLatestBlockhash (Ok blockhash)) t
           /\ In (Ev (TransactionSign signed payer) (Ok tt)) t
           /\ instructions signed = instructions tx
           /\ recentBlockhash signed = recentBlockhash tx
           /\ feePayer signed = feePayer tx)
  /\ (forall tx signer,
        sign_of e = Some (tx, signer) ->
        In (Ev KeypairGenerate signer) t
        /\ feePayer tx = Some (kp_publicKey signer)).

(** What a compress call is passed, in a run from state [st] with trace
    [t]: owner and destination are the wallet key, the payer is a keypair
    generated in the run, mint and source are answers of [new PublicKey]. *)
Definition compresses_to_owner (st : State) (t : trace) (e : event) : Prop :=
  forall p,
    compress_of e = Some p ->
    walletKey st = Some (cp_owner p)
    /\ cp_toAddress p = cp_owner p
    /\ (exists payer, In (Ev KeypairGenerate payer) t /\ cp_payer p = kp_publicKey payer)
    /\ (exists s, In (Ev (NewPublicKey s) (Ok (cp_mint p))) t)
    /\ (exists s, In (Ev (NewPublicKey s) (Ok (cp_source p))) t).

(** The descriptor [toParsedAccount] builds for the token account [a],
    but for the two fields the libraries compute. *)
Definition descriptor_of (owner : PublicKey) (a : TokenAccountEntry)
    (d : ParsedTokenAccount) : Prop :=
  ca_hash (compressedAccount d) = info_mint (parsed_info a)
  /\ ca_owner (compressedAccount d) = owner
  /\ ca_lamports (compressedAccount d) = 1%Z
  /\ ca_data (compressedAccount d) = []
  /\ ca_address (compressedAccount d) <> None
  /\ parsed d = parsed_info a.

(** What a selection call is passed, in a run from state [st] with trace
    [t]: one descriptor per token account the RPC query answered for the
    wallet key and the mint, in the same order. *)
Definition selects_among_accounts (st : State) (t : trace) (e : event) : Prop :=
  forall accounts a,
    selection_of e = Some (accounts, a) ->
    exists owner mint entries,
      walletKey st = Some owner
      /\ In (Ev (GetParsedTokenAccountsByOwner owner (ByMint mint)) (Ok entries)) t
      /\ Forall2 (descriptor_of owner) entries accounts.

(** The selection answered a first account without an address. *)
Definition selection_without_address (e : event) : bool :=
  match e with
  | Ev c x =>
      match c in call X return X -> bool with
      | SelectMinCompressedTokenAccountsForTransfer _ _ =>
          fun x =>
            match x with
            | Ok (first :: _) =>
                match ca_address (compressedAccount first) with
                | None => true
                | Some _ => false
                end
            | _ => false
            end
      | _ => fun _ => false
      end x
  end.

(** Network calls other than the log lookup of the [catch] block. *)
Definition is_network_but_logs (e : event) : bool :=
  is_network e && negb (is_getTransaction e).

Definition is_KeypairGenerate (e : event) : bool :=
  match e with
  | Ev c _ =>
      match c with
      | KeypairGenerate => true
      | _ => false
      end
  end.

(** The arguments of the calls that name an account. *)
Definition token_query_of (e : event) : option (PublicKey * TokenAccountsFilter) :=
  match e with
  | Ev c _ =>
      match c with
      | GetParsedTokenAccountsByOwner owner f => Some (owner, f)
      | _ => None
      end
  end.

Definition derivation_of (e : event)
  : option (PublicKey * PublicKey * bool * PublicKey * PublicKey) :=
  match e with
  | Ev c _ =>
      match c with
      | GetAssociatedTokenAddress a0 a1 b a3 a4 => Some (a0, a1, b, a3, a4)
      | _ => None
      end
  end.

Definition account_lookup_of (e : event) : option PublicKey :=
  match e with
  | Ev c _ =>
      match c with
      | GetAccountInfo a => Some a
      | _ => None
      end
  end.

(** What the calls of a run with trace [t] are about, when the ticked
    record is [token] and the program ids are [TOKEN] and [ASSOCIATED]:
    the mint is an answer of [new PublicKey] on the record's mint address,
    the owner is the wallet key, and the account looked up is the derived
    associated address. *)
Definition about_ticked_mint (TOKEN ASSOCIATED : PublicKey) (st : State)
    (token : TokenInfo) (t : trace) (e : event) : Prop :=
  (forall a0 a1 b a3 a4,
      derivation_of e = Some (a0, a1, b, a3, a4) ->
      In (Ev (NewPublicKey (mintAddress token)) (Ok a0)) t
      /\ walletKey st = Some a1 /\ b = false /\ a3 = ASSOCIATED /\ a4 = TOKEN)
  /\ (forall a,
        account_lookup_of e = Some a ->
        exists m o, In (Ev (GetAssociatedTokenAddress m o false ASSOCIATED TOKEN) (Ok a)) t)
  /\ (forall o f,
        token_query_of e = Some (o, f) ->
        walletKey st = Some o
        /\ exists m, f = ByMint m /\ In (Ev (NewPublicKey (mintAddress token)) (Ok m)) t)
  /\ (forall p,
        compress_of e = Some p ->
        In (Ev (NewPublicKey (mintAddress token)) (Ok (cp_mint p))) t).

(** What a transaction handed to the provider holds, in a run from state
    [st] with trace [t]: the instruction the compression library
    returned, or the creation instruction with the arguments in the order
    of the call site: the public key of a keypair generated in the run,
    the wallet key, the mint and the two program ids, where the mint is an
    answer of [new PublicKey], the associated address was derived for
    that mint and the wallet key, and [getAccountInfo] answered [null] for
    the derived address. *)
Definition submits_what_was_built (TOKEN ASSOCIATED : PublicKey) (st : State)
    (t : trace) (e : event) : Prop :=
  forall p tx,
    submit_of e = Some (p, tx) ->
    (exists prm payload,
        instructions tx = [CompressedTokenIx payload]
        /\ In (Ev (CompressedTokenProgram_compress prm) (Ok payload)) t)
    \/ (exists payer owner mint s ata,
          instructions tx
          = [createAssociatedTokenAccountInstruction
               (kp_publicKey payer) owner mint ASSOCIATED TOKEN]
          /\ walletKey st = Some owner
          /\ In (Ev KeypairGenerate payer) t
          /\ existsb account_missing t = true
          /\ In (Ev (NewPublicKey s) (Ok mint)) t
          /\ In (Ev (GetAssociatedTokenAddress mint owner false ASSOCIATED TOKEN)
                   (Ok ata)) t
          /\ In (Ev (GetAccountInfo ata) (Ok None)) t).

(** The selection returns an account whose address is missing. *)
Definition address_missing : Script :=
  set_select
    (fun accounts =>
       match accounts with
       | first :: _ =>
           Ok [ {| compressedAccount :=
                     {| ca_hash := ca_hash (compressedAccount first);
                        ca_amount := ca_amount (compressedAccount first);
                        ca_owner := ca_owner (compressedAccount first);
                        ca_lamports := ca_lamports (compressedAccount first);
                        ca_address := None;
                        ca_data := ca_data (compressedAccount first) |};
                   parsed := parsed first |} ]
       | [] => Ok []
       end)
    happy.

(** ** The rendered tree *)

#[warnings="-register-all"]
Inductive element :=
| Div (key : option nat) (children : list element)
| Button (onClick : action) (label : string)
| Checkbox (checked : bool) (onChange : action)
| Text (s : string).

(** One row of the token list: [<div key={index}>] with the checkbox and
    the text [{token.mintAddress} - {token.amount}]. *)
Definition render_row (index : nat) (token : TokenInfo) : element :=
  Div (Some index)
    [Checkbox (selected token) (ClickCheckbox index);
     Text (mintAddress token); Text " - "; Text (amount token)].

(** [tokens.map((token, index) => ...)], from position [index] on. *)
Fixpoint render_rows (h : heap) (index : nat) (l : list ref) : option (list element) :=
  match l with
  | [] => Some []
  | r :: l' =>
      match h !! r, render_rows h (S index) l' with
      | Some token, Some rows => Some (render_row index token :: rows)
      | _, _ => None
      end
  end.

(** The tree the component returns; [None] stands for a token list with
    a reference outside the store, which does not arise. *)
Definition render (h : heap) (st : State) : option element :=
  match walletKey st with
  | Some _ =>
      match render_rows h 0 (tokens st) with
      | Some rows =>
          Some (Div None
                  [Div None
                     [Button ClickDisconnect "Disconnect Wallet";
                      Div None rows;
                      Button ClickCompress "Compress Tokens"]])
      | None => None
      end
  | None => Some (Div None [Button ClickConnect "Connect Wallet"])
  end.

(** The checkbox of a row, ticked the other way. *)
Definition toggle_row (row : element) : element :=
  match row with
  | Div key (Checkbox checked onChange :: text) =>
      Div key (Checkbox (negb checked) onChange :: text)
  | _ => row
  end.

(** The actions the buttons and checkboxes of a tree are wired to. *)
Fixpoint actions_of (e : element) : list action :=
  match e with
  | Div _ children => flat_map actions_of children
  | Button onClick _ => [onClick]
  | Checkbox _ onChange => [onChange]
  | Text _ => []
  end.

(** More scripted outsides: the wallet refuses to connect; a render that
    remembers the signature of an earlier submission. *)
Definition connect_refused : Script :=
  {| s_connect := Err (Error "User rejected the request.");
     s_disconnect := s_disconnect happy;
     s_tokenAccounts := s_tokenAccounts happy;
     s_accountInfo := s_accountInfo happy;
     s_select := s_select happy;
     s_confirm := s_confirm happy;
     s_getTransaction := s_getTransaction happy |}.

Definition after_submission : State :=
  {| walletKey := Some alice; tokens := [0; 1]; signature := Some "sig-earlier" |}.

(** ** Tactics for running a handler against an arbitrary outside *)

(** Name the answer of the call the run is waiting for, and split on
    whether it returned or threw. *)
Ltac answer oracle :=
  match goal with
  | |- context [oracle ?X ?c ?w] =>
      let r := fresh "r" in
      let w' := fresh "w" in
      destruct (oracle X c w) as [r w'];
      lazymatch type of r with
      | result unit => destruct r as [[]|?]
      | result _ => destruct r as [?|?]
      | unit => destruct r
      | _ => idtac
      end;
      cbn
  end.

Ltac unfold_monad :=
  unfold bind, try_catch, await, perform, ret, throw, load, store_selected.

Ltac unfold_monad_in H :=
  unfold bind, try_catch, await, perform, ret, throw, load, store_selected in H.

(** Events of a given kind never satisfy a predicate that is false on
    every call of that kind. *)
Ltac kind_excl :=
  let e := fresh "e" in
  let Hk := fresh "Hk" in
  intros e Hk; destruct e as [? c ?]; destruct c; cbn in Hk |- *; congruence.

(** * Properties *)

Section Properties.

Context {W : Type}.
Variable oracle : forall X : Type, call X -> W -> X * W.
Variables TOKEN_PROGRAM_ID ASSOCIATED_TOKEN_PROGRAM_ID : PublicKey.

(** ** Setters and traces *)

Lemma next_state_app (s : State) (t1 t2 : trace) :
  next_state s (t1 ++ t2) = next_state (next_state s t1) t2.
Proof. unfold next_state. apply fold_left_app. Qed.

Lemma next_state_no_setter (s : State) (t : trace) :
  forallb (fun e => negb (is_setter e)) t = true -> next_state s t = s.
Proof.
  revert s. induction t as [|e t IH]; intros s H; [reflexivity|].
  cbn in H. apply andb_true_iff in H as [He Ht].
  change (next_state (apply_setter s e) t = s).
  rewrite IH by assumption.
  destruct e as [X c x]. destruct c; cbn in He; try discriminate; reflexivity.
Qed.

(** ** Token Lister *)

Lemma array_map_alloc (l : list TokenAccountEntry) (w : W) (h : heap) :
  array_map (fun a => alloc (token_of a)) l w h
  = (Ok (seq (length h) (length l)), [], w, h ++ map token_of l).
Proof.
  revert h. induction l as [|a l IH]; intros h.
  - cbn. unfold ret. now rewrite app_nil_r.
  - cbn [array_map]. unfold bind at 1. unfold alloc at 1.
    unfold bind at 1. rewrite IH. unfold ret. cbn.
    rewrite length_app, <- app_assoc. cbn.
    now replace (length h + 1) with (S (length h)) by lia.
Qed.

Lemma records_fresh (h : heap) (ts : list TokenInfo) :
  records (h ++ ts) (seq (length h) (length ts)) = map Some ts.
Proof.
  unfold records. revert h. induction ts as [|t ts IH]; intros h; [reflexivity|].
  cbn [length seq map]. f_equal.
  - rewrite lookup_app_r by lia. now rewrite Nat.sub_diag.
  - specialize (IH (h ++ [t])). rewrite length_app in IH. cbn in IH.
    rewrite <- app_assoc in IH. cbn in IH.
    now replace (length h + 1) with (S (length h)) in IH by lia.
Qed.

(** What [fetchTokens] does when the RPC query answers. *)
Lemma fetchTokens_ok (publicKey : PublicKey) (accounts : list TokenAccountEntry)
    (w w1 : W) (h : heap) :
  oracle _ (GetParsedTokenAccountsByOwner publicKey (ByProgramId TOKEN_PROGRAM_ID)) w
    = (Ok accounts, w1) ->
  let tokensInfo := seq (length h) (length accounts) in
  fetchTokens oracle TOKEN_PROGRAM_ID publicKey w h
  = (Ok tt,
     [Ev (GetParsedTokenAccountsByOwner publicKey (ByProgramId TOKEN_PROGRAM_ID))
         (Ok accounts);
      Ev (SetTokens tokensInfo) tt],
     (oracle _ (SetTokens tokensInfo) w1).2,
     h ++ map token_of accounts).
Proof.
  intros H tokensInfo. unfold fetchTokens.
  unfold try_catch, bind at 1, await. rewrite H.
  unfold bind.
  change (array_map _ accounts w1 h)
    with (array_map (W:=W) (fun a => alloc (token_of a)) accounts w1 h).
  rewrite array_map_alloc. unfold perform. fold tokensInfo.
  destruct (oracle unit (SetTokens tokensInfo) w1) as [[] w2]. reflexivity.
Qed.

(** What [fetchTokens] does when the RPC query throws. *)
Lemma fetchTokens_err (publicKey : PublicKey) (e : exn) (w w1 : W) (h : heap) :
  oracle _ (GetParsedTokenAccountsByOwner publicKey (ByProgramId TOKEN_PROGRAM_ID)) w
    = (Err e, w1) ->
  fetchTokens oracle TOKEN_PROGRAM_ID publicKey w h
  = (Ok tt,
     [Ev (GetParsedTokenAccountsByOwner publicKey (ByProgramId TOKEN_PROGRAM_ID))
         (Err e);
      Ev (ConsoleLog "Error fetching tokens:" (Some (DError e))) tt],
     (oracle _ (ConsoleLog "Error fetching tokens:" (Some (DError e))) w1).2,
     h).
Proof.
  intros H. unfold fetchTokens, try_catch, bind at 1, await. rewrite H.
  unfold perform.
  destruct (oracle unit (ConsoleLog _ _) w1) as [[] w2]. reflexivity.
Qed.

(** The promise [fetchTokens] returns is never rejected. *)
Lemma fetchTokens_returns (publicKey : PublicKey) (w : W) (h : heap) :
  outcome_of (fetchTokens oracle TOKEN_PROGRAM_ID publicKey w h) = Ok tt.
Proof.
  destruct (oracle _ (GetParsedTokenAccountsByOwner publicKey
                        (ByProgramId TOKEN_PROGRAM_ID)) w) as [[l|e] w1] eqn:E.
  - now rewrite (fetchTokens_ok _ _ _ _ _ E).
  - now rewrite (fetchTokens_err _ _ _ _ _ E).
Qed.

(** C4. If the RPC call answers with N parsed token accounts, [fetchTokens]
    returns normally and the token list of the next render has exactly N
    records, in the order of the RPC result, the i-th carrying the i-th
    account's mint and uiAmountString with [selected = false]; the list is
    made of fresh records only, whatever the previous list was, and the
    records already in the store are untouched. *)
Theorem fetchTokens_maps_accounts (publicKey : PublicKey)
    (accounts : list TokenAccountEntry) (st : State) (w w1 : W) (h : heap) :
  oracle _ (GetParsedTokenAccountsByOwner publicKey (ByProgramId TOKEN_PROGRAM_ID)) w
    = (Ok accounts, w1) ->
  let run := fetchTokens oracle TOKEN_PROGRAM_ID publicKey w h in
  let st' := next_state st (trace_of run) in
  outcome_of run = Ok tt
  /\ length (tokens st') = length accounts
  /\ records (heap_of run) (tokens st')
     = map (fun a => Some {| mintAddress := info_mint (parsed_info a);
                             amount := uiAmountString (tokenAmount (parsed_info a));
                             selected := false |}) accounts
  /\ Forall (fun r => length h <= r) (tokens st')
  /\ (forall r, r < length h -> heap_of run !! r = h !! r).
Proof.
  intros H run st'. subst run st'. rewrite (fetchTokens_ok _ _ _ _ _ H).
  cbn. repeat split.
  - apply length_seq.
  - pose proof (records_fresh h (map token_of accounts)) as R.
    unfold records in R. rewrite length_map in R.
    rewrite R, map_map. reflexivity.
  - apply Forall_forall. intros r Hr. apply elem_of_seq in Hr. lia.
  - intros r Hr. now rewrite lookup_app_l.
Qed.

(** C8. If the RPC query of [fetchTokens] throws, the error is caught: the
    handler returns normally, having only logged the error; no setter is
    called, so the next render has the state of this one, and the store is
    as it was. *)
Theorem fetchTokens_failure_keeps_list (publicKey : PublicKey) (e : exn)
    (st : State) (w w1 : W) (h : heap) :
  oracle _ (GetParsedTokenAccountsByOwner publicKey (ByProgramId TOKEN_PROGRAM_ID)) w
    = (Err e, w1) ->
  let run := fetchTokens oracle TOKEN_PROGRAM_ID publicKey w h in
  outcome_of run = Ok tt
  /\ trace_of run
     = [Ev (GetParsedTokenAccountsByOwner publicKey (ByProgramId TOKEN_PROGRAM_ID))
           (Err e);
        Ev (ConsoleLog "Error fetching tokens:" (Some (DError e))) tt]
  /\ next_state st (trace_of run) = st
  /\ heap_of run = h.
Proof.
  intros H run. subst run. rewrite (fetchTokens_err _ _ _ _ _ H).
  cbn. repeat split.
Qed.

(** ** Wallet Connector *)

(** What [getProvider] does when it finds no Phantom handle. *)
Lemma getProvider_none (window : Window) (w : W) (h : heap) :
  (solana window = Absent \/ solana window = Nullish
   \/ exists p, solana window = Injected p /\ isPhantom p = false) ->
  getProvider oracle window w h
  = (Ok None, [Ev (WindowOpen "https://phantom.app/" "_blank") tt],
     (oracle _ (WindowOpen "https://phantom.app/" "_blank") w).2, h).
Proof.
  intros H. unfold getProvider.
  assert (E : match solana window with
              | Injected provider => if isPhantom provider then Some provider else None
              | _ => None
              end = None).
  { destruct H as [-> | [-> | (p & -> & ->)]]; reflexivity. }
  rewrite E. unfold_monad.
  destruct (oracle unit (WindowOpen _ _) w) as [[] w1]. reflexivity.
Qed.

(** What [getProvider] does when Phantom is injected. *)
Lemma getProvider_some (window : Window) (p : Provider) (w : W) (h : heap) :
  solana window = Injected p -> isPhantom p = true ->
  getProvider oracle window w h = (Ok (Some p), [], w, h).
Proof. intros E1 E2. unfold getProvider. now rewrite E1, E2. Qed.

(** C9. With no injected provider, or with an injected object that does not
    identify itself as Phantom, [getProvider] opens the install page in a
    new tab and returns nothing; [connectWallet] then does nothing more: it
    returns with that one browser call in its trace (no connection request
    to a provider, no RPC query), without calling a setter, so the wallet
    key and the token list of the next render are those of this one. *)
Theorem connectWallet_without_provider (window : Window) (st : State)
    (w : W) (h : heap) :
  (solana window = Absent \/ solana window = Nullish
   \/ exists p, solana window = Injected p /\ isPhantom p = false) ->
  let install := Ev (WindowOpen "https://phantom.app/" "_blank") tt in
  let found := getProvider oracle window w h in
  let run := connectWallet oracle TOKEN_PROGRAM_ID window w h in
  (outcome_of found = Ok None /\ trace_of found = [install])
  /\ outcome_of run = Ok tt
  /\ trace_of run = [install]
  /\ forallb (fun e => negb (is_network e)) (trace_of run) = true
  /\ next_state st (trace_of run) = st
  /\ heap_of run = h.
Proof.
  intros H install found run. subst found run.
  unfold connectWallet, bind. rewrite (getProvider_none _ _ _ H).
  cbn. repeat split.
Qed.

(** What [disconnectWallet] does, by cases on the provider and on the
    answer to the disconnect request. *)
Lemma disconnectWallet_ok (window : Window) (p : Provider) (w w1 : W) (h : heap) :
  solana window = Injected p -> isPhantom p = true ->
  oracle _ (ProviderDisconnect p) w = (Ok tt, w1) ->
  exists w',
    disconnectWallet oracle window w h
    = (Ok tt,
       [Ev (ProviderDisconnect p) (Ok tt); Ev (SetWalletKey None) tt;
        Ev (SetTokens []) tt; Ev (ConsoleLog "Disconnected" None) tt],
       w', h).
Proof.
  intros E1 E2 E3. unfold disconnectWallet. unfold bind at 1.
  rewrite (getProvider_some _ _ _ _ E1 E2).
  unfold_monad. rewrite E3. repeat answer oracle. eexists. reflexivity.
Qed.

Lemma disconnectWallet_rejected (window : Window) (p : Provider) (e : exn)
    (w w1 : W) (h : heap) :
  solana window = Injected p -> isPhantom p = true ->
  oracle _ (ProviderDisconnect p) w = (Err e, w1) ->
  exists w',
    disconnectWallet oracle window w h
    = (Ok tt,
       [Ev (ProviderDisconnect p) (Err e);
        Ev (ConsoleLog "Disconnection error:" (Some (DError e))) tt],
       w', h).
Proof.
  intros E1 E2 E3. unfold disconnectWallet. unfold bind at 1.
  rewrite (getProvider_some _ _ _ _ E1 E2).
  unfold_monad. rewrite E3. repeat answer oracle. eexists. reflexivity.
Qed.

Lemma disconnectWallet_without_provider (window : Window) (w : W) (h : heap) :
  (solana window = Absent \/ solana window = Nullish
   \/ exists p, solana window = Injected p /\ isPhantom p = false) ->
  exists w',
    disconnectWallet oracle window w h
    = (Ok tt, [Ev (WindowOpen "https://phantom.app/" "_blank") tt], w', h).
Proof.
  intros H. unfold disconnectWallet, bind. rewrite (getProvider_none _ _ _ H).
  cbn. eexists. reflexivity.
Qed.

(** C6, as amended. When Phantom is detected and the provider's disconnect
    request succeeds, [disconnectWallet] returns and the next render has the
    wallet key cleared and the token list empty. *)
Theorem disconnectWallet_clears_on_success (window : Window) (p : Provider)
    (st : State) (w w1 : W) (h : heap) :
  solana window = Injected p -> isPhantom p = true ->
  oracle _ (ProviderDisconnect p) w = (Ok tt, w1) ->
  let run := disconnectWallet oracle window w h in
  let st' := next_state st (trace_of run) in
  outcome_of run = Ok tt /\ walletKey st' = None /\ tokens st' = [].
Proof.
  intros E1 E2 E3 run st'. subst run st'.
  destruct (disconnectWallet_ok _ _ _ _ h E1 E2 E3) as (w' & ->).
  cbn. auto.
Qed.

(** X25. When no Phantom handle is found, or when the provider rejects
    the disconnect request, [disconnectWallet] calls no setter: the next
    render has the state of this one. *)
Lemma disconnectWallet_otherwise_unchanged (window : Window) (st : State)
    (w : W) (h : heap) :
  (solana window = Absent \/ solana window = Nullish
   \/ (exists p, solana window = Injected p /\ isPhantom p = false)
   \/ (exists p e w1, solana window = Injected p /\ isPhantom p = true
                      /\ oracle _ (ProviderDisconnect p) w = (Err e, w1))) ->
  next_state st (trace_of (disconnectWallet oracle window w h)) = st.
Proof.
  intros [H | [H | [H | (p & e & w1 & E1 & E2 & E3)]]].
  - destruct (disconnectWallet_without_provider window w h) as (w' & ->); auto.
  - destruct (disconnectWallet_without_provider window w h) as (w' & ->); auto.
  - destruct (disconnectWallet_without_provider window w h) as (w' & ->); auto.
  - destruct (disconnectWallet_rejected _ _ _ _ _ h E1 E2 E3) as (w' & ->).
    reflexivity.
Qed.

(** ** Checkbox toggle *)

Lemma handleCheckboxChange_run (st : State) (i : nat) (r : nat) (t : TokenInfo)
    (w : W) (h : heap) :
  tokens st !! i = Some r -> h !! r = Some t ->
  handleCheckboxChange oracle st i w h
  = (Ok tt, [Ev (SetTokens (tokens st)) tt],
     (oracle _ (SetTokens (tokens st)) w).2,
     <[r := {| mintAddress := mintAddress t; amount := amount t;
               selected := negb (selected t) |}]> h).
Proof.
  intros E1 E2. unfold handleCheckboxChange. rewrite E1.
  unfold_monad. rewrite E2. cbn. rewrite E2.
  destruct (oracle unit (SetTokens (tokens st)) w) as [[] w1]. reflexivity.
Qed.

(** An index outside the list: reading [selected] of [undefined] throws,
    before anything is written. *)
Lemma handleCheckboxChange_out_of_range (st : State) (i : nat) (w : W) (h : heap) :
  length (tokens st) <= i ->
  exists e, handleCheckboxChange oracle st i w h = (Err e, [], w, h).
Proof.
  intros H. unfold handleCheckboxChange.
  rewrite (lookup_ge_None_2 _ _ H). eexists. reflexivity.
Qed.

(** C5. For a token list of the component (references to distinct records
    of the store) and a valid index [i], [handleCheckboxChange i] returns
    and the next render's list has the same length; its record [i] has
    [selected] negated and the same [mintAddress] and [amount]; the record
    at any other index is the one that was there. *)
Theorem handleCheckboxChange_flips_only (st : State) (i : nat) (w : W) (h : heap) :
  wf h (tokens st) ->
  i < length (tokens st) ->
  let run := handleCheckboxChange oracle st i w h in
  let st' := next_state st (trace_of run) in
  outcome_of run = Ok tt
  /\ length (tokens st') = length (tokens st)
  /\ (exists t,
         token_at h (tokens st) i = Some t
         /\ token_at (heap_of run) (tokens st') i
            = Some {| mintAddress := mintAddress t; amount := amount t;
                      selected := negb (selected t) |})
  /\ (forall j, j <> i ->
        token_at (heap_of run) (tokens st') j = token_at h (tokens st) j).
Proof.
  intros [Hnd Hin] Hi run st'. subst run st'.
  destruct (lookup_lt_is_Some_2 _ _ Hi) as [r Er].
  assert (Hr : r < length h).
  { rewrite Forall_forall in Hin. apply Hin. eapply list_elem_of_lookup_2; eauto. }
  destruct (lookup_lt_is_Some_2 _ _ Hr) as [t Et].
  rewrite (handleCheckboxChange_run _ _ _ _ _ _ Er Et). cbn.
  repeat split.
  - exists t. unfold token_at. rewrite Er. split; [assumption|].
    now apply list_lookup_insert_eq.
  - intros j Hj. unfold token_at.
    destruct (tokens st !! j) as [r'|] eqn:Ej; [|reflexivity].
    apply list_lookup_insert_ne. intros ->.
    apply Hj. eapply NoDup_lookup; eauto.
Qed.

(** ** Compression Orchestrator *)

(** The [filter] over the token list reads the store and nothing else. *)
Lemma array_filter_selected (l : list nat) (w : W) (h : heap) :
  Forall (fun r => r < length h) l ->
  array_filter (W:=W) (fun token => bind (load token) (fun t => ret (selected t))) l w h
  = (Ok (List.filter (is_selected h) l), [], w, h).
Proof.
  induction l as [|r l IH]; intros Hl; [reflexivity|].
  apply Forall_cons in Hl as [Hr Hl].
  destruct (lookup_lt_is_Some_2 _ _ Hr) as [t Et].
  cbn [array_filter List.filter]. unfold bind at 1. unfold bind at 1.
  unfold load at 1. rewrite Et. unfold ret at 1. unfold bind at 1.
  rewrite (IH Hl). unfold ret. cbn. unfold is_selected. rewrite Et.
  destruct (selected t); reflexivity.
Qed.

Lemma array_filter_silent (l : list nat) (w : W) (h : heap) :
  exists r,
    array_filter (W:=W) (fun token => bind (load token) (fun t => ret (selected t))) l w h
    = (r, [], w, h).
Proof.
  induction l as [|r l [r' IH]]; [eexists; reflexivity|].
  cbn [array_filter]. unfold bind at 1. unfold bind at 1. unfold load at 1.
  destruct (h !! r) as [t|]; [|eexists; reflexivity].
  unfold ret at 1. unfold bind at 1. rewrite IH.
  destruct r' as [sel|e]; eexists; reflexivity.
Qed.

Lemma compressTokens_not_one (window : Window) (st : State) (w : W) (h : heap) :
  Forall (fun r => r < length h) (tokens st) ->
  length (List.filter (is_selected h) (tokens st)) <> 1 ->
  exists w',
    compressTokens oracle TOKEN_PROGRAM_ID ASSOCIATED_TOKEN_PROGRAM_ID window st w h
    = (Ok tt, [select_one_alert], w', h).
Proof.
  intros Hin Hn. unfold compressTokens, bind.
  rewrite (array_filter_selected _ _ _ Hin).
  destruct (List.filter (is_selected h) (tokens st)) as [|a [|b l]];
    cbn in Hn; try congruence;
    unfold perform, select_one_alert;
    destruct (oracle unit (Alert _) w) as [[] w1]; eexists; reflexivity.
Qed.

(** C1. When the number of ticked records of the token list is not exactly
    one, [compressTokens] returns after a single call, the alert asking to
    select exactly one token: no call to the provider or to the RPC
    endpoint, no setter (wallet key, token list and signature of the next
    render are those of this one), and the store is as it was. *)
Theorem compressTokens_requires_one_selection (window : Window) (st : State)
    (w : W) (h : heap) :
  wf h (tokens st) ->
  length (List.filter (is_selected h) (tokens st)) <> 1 ->
  let run :=
    compressTokens oracle TOKEN_PROGRAM_ID ASSOCIATED_TOKEN_PROGRAM_ID window st w h in
  outcome_of run = Ok tt
  /\ trace_of run = [select_one_alert]
  /\ forallb (fun e => negb (is_network e)) (trace_of run) = true
  /\ next_state st (trace_of run) = st
  /\ heap_of run = h.
Proof.
  intros [_ Hin] Hn run. subst run.
  destruct (compressTokens_not_one window st w h Hin Hn) as (w' & ->).
  cbn. repeat split.
Qed.

(** Building the candidate descriptors: only [new BN] and [new PublicKey]
    are called; each descriptor carries the answer of [new BN] on the
    [uiAmountString] of the account at the same position. *)
Lemma array_map_toParsedAccount (publicKey : PublicKey) (l : list TokenAccountEntry)
    (w : W) (h : heap) r t w' h' :
  array_map (toParsedAccount oracle publicKey) l w h = (r, t, w', h') ->
  h' = h
  /\ forallb is_descriptor_call t = true
  /\ (forall ds, r = Ok ds ->
        Forall2 (fun d a =>
                   existsb (is_BN_parse (uiAmountString (tokenAmount (parsed_info a)))
                                        (ca_amount (compressedAccount d))) t = true
                   /\ parsed d = parsed_info a)
                ds l).
Proof.
  revert w h r t w' h'. induction l as [|a l IH]; intros w h r t w' h' H.
  - cbn in H. unfold ret in H. injection H as <- <- <- <-.
    repeat split. intros ds [= <-]. constructor.
  - cbn [array_map] in H. unfold bind at 1 in H.
    unfold toParsedAccount at 1 in H. unfold_monad_in H.
    destruct (oracle _ (NewBN _) w) as [[v|e] w1]; cbn in H.
    2: { injection H as <- <- <- <-. repeat split. intros ds [=]. }
    destruct (oracle _ (NewPublicKey _) w1) as [[k|e] w2]; cbn in H.
    2: { injection H as <- <- <- <-. repeat split. intros ds [=]. }
    destruct (array_map (toParsedAccount oracle publicKey) l w2 h)
      as [[[r0 t0] w0] h0] eqn:E0.
    destruct (IH _ _ _ _ _ _ E0) as (-> & Hc & Hd).
    destruct r0 as [ds0|e]; cbn in H; rewrite ?app_nil_r in H;
      injection H as <- <- <- <-.
    + split; [reflexivity|]. split; [exact Hc|]. intros ds [= <-]. constructor.
      * cbn. rewrite String.eqb_refl, Z.eqb_refl. auto.
      * eapply Forall2_impl; [apply Hd; reflexivity|].
        cbn. intros d a' [Hp Hq]. split; [|exact Hq].
        rewrite Hp. apply orb_true_r.
    + split; [reflexivity|]. split; [exact Hc|]. intros ds [=].
Qed.

(** The [catch] block: it logs the error, looks the logs up when the
    render's [signature] is a non-empty string (a failure of the lookup
    is logged, not thrown), shows the failure alert and returns. *)
Lemma compressTokens_catch_run (st : State) (e : exn) (w : W) (h : heap) :
  exists logs w',
    compressTokens_catch oracle st e w h
    = (Ok tt,
       Ev (ConsoleError "Compression failed:" (Some (DError e))) tt
         :: logs ++ [failure_alert],
       w', h)
    /\ forallb is_log_fetch logs = true
    /\ (forall s, existsb (fetches_logs_of s) logs = true -> signature st = Some s)
    /\ (truthy (signature st) = false -> logs = [])
    /\ (forall s, signature st = Some s -> truthy (signature st) = true ->
          existsb (fetches_logs_of s) logs = true).
Proof.
  unfold compressTokens_catch, failure_alert. unfold_monad.
  destruct st as [wk toks [s|]]; cbn [signature truthy].
  2: { repeat answer oracle. exists [], w1. repeat split; try discriminate. }
  destruct (negb (s =? "")%string) eqn:Es.
  2: { repeat answer oracle. exists [], w1. repeat split; try discriminate. }
  repeat answer oracle.
  - eexists [_; _], _. split; [reflexivity|]. repeat split; try discriminate.
    + cbn. intros s'. rewrite orb_false_r. intros Hs.
      apply String.eqb_eq in Hs. now subst.
    + intros s' [= <-] _. cbn. now rewrite String.eqb_refl.
  - eexists [_; _], _. split; [reflexivity|]. repeat split; try discriminate.
    + cbn. intros s'. rewrite orb_false_r. intros Hs.
      apply String.eqb_eq in Hs. now subst.
    + intros s' [= <-] _. cbn. now rewrite String.eqb_refl.
Qed.


(** *** Segments of a trace known by the kind of their events *)

Lemma existsb_none (K P : event -> bool) (t : trace) :
  (forall e, K e = true -> P e = false) ->
  forallb K t = true -> existsb P t = false.
Proof.
  intros HK. induction t as [|e t IH]; cbn; [reflexivity|].
  intros H. apply andb_true_iff in H as [He Ht].
  now rewrite (HK e He), (IH Ht).
Qed.

Lemma forallb_all (K P : event -> bool) (t : trace) :
  (forall e, K e = true -> P e = true) ->
  forallb K t = true -> forallb P t = true.
Proof.
  intros HK. induction t as [|e t IH]; cbn; [reflexivity|].
  intros H. apply andb_true_iff in H as [He Ht].
  now rewrite (HK e He), (IH Ht).
Qed.

Lemma Forall_of_kind (K : event -> bool) (P : event -> Prop) (t : trace) :
  (forall e, K e = true -> P e) ->
  forallb K t = true -> Forall P t.
Proof.
  intros HK. induction t as [|e t IH]; cbn; [constructor|].
  intros H. apply andb_true_iff in H as [He Ht].
  constructor; auto.
Qed.

Lemma lookup_existsb (P : event -> bool) (t : trace) (n : nat) (e : event) :
  t !! n = Some e -> P e = true -> existsb P t = true.
Proof.
  intros Hn HP. apply existsb_exists. exists e. split; [|assumption].
  apply list_elem_of_In. eapply list_elem_of_lookup_2; eauto.
Qed.

Lemma last_app_nonempty {A} (l1 l2 : list A) (x : A) :
  last l2 = Some x -> last (l1 ++ l2) = Some x.
Proof. intros H. now rewrite last_app, H. Qed.

Lemma last_cons_nonempty {A} (a : A) (l : list A) (x : A) :
  last l = Some x -> last (a :: l) = Some x.
Proof. intros H. now rewrite last_cons, H. Qed.

(** Rewrite with what is known of the segments of the trace in the goal. *)
Ltac use_segments :=
  repeat match goal with
    | Hs : forallb ?K ?seg = true |- context [existsb ?P ?seg] =>
        rewrite (existsb_none K P seg ltac:(kind_excl) Hs)
    | Hs : forallb ?K ?seg = true |- context [forallb ?P ?seg] =>
        progress rewrite (forallb_all K P seg ltac:(kind_excl) Hs)
    end.

Ltac simpl_trace :=
  repeat (progress (cbn; rewrite ?existsb_app, ?forallb_app, ?last_app, ?app_nil_r;
                    use_segments)).

(** One step of a symbolic run of [compressTokens]: answer the pending
    call, or split on the value the run is inspecting. *)
Ltac run_step :=
  first
    [ answer oracle
    | match goal with
      | |- context [compressTokens_catch oracle ?st ?e ?w ?h] =>
          let logs := fresh "logs" in
          let wc := fresh "w" in
          let Hlogs := fresh "Hlogs" in
          let Hsig := fresh "Hsig" in
          let Hnone := fresh "Hnone" in
          let Hsome := fresh "Hsome" in
          destruct (compressTokens_catch_run st e w h)
            as (logs & wc & -> & Hlogs & Hsig & Hnone & Hsome);
          cbn
      | |- context [array_map (toParsedAccount oracle ?pk) ?l ?w ?h] =>
          let rm := fresh "rm" in
          let tm := fresh "tm" in
          let wm := fresh "w" in
          let hm := fresh "h" in
          let Em := fresh "Em" in
          let Hcalls := fresh "Hcalls" in
          let Hdesc := fresh "Hdesc" in
          destruct (array_map (toParsedAccount oracle pk) l w h)
            as [[[rm tm] wm] hm] eqn:Em;
          apply array_map_toParsedAccount in Em;
          destruct Em as (-> & Hcalls & Hdesc);
          destruct rm;
          cbn
      | |- context [match ?x with Some _ => _ | None => _ end] =>
          destruct x eqn:?; cbn
      | |- context [match ?x with [] => _ | _ :: _ => _ end] =>
          destruct x eqn:?; cbn
      end ].

(** Start a symbolic run of [compressTokens]: name the run, split on the
    window, the state and the result of the filter. *)
Ltac run_compressTokens window st w h :=
  match goal with
  | |- context [compressTokens oracle ?T ?A window st w h] =>
      let x := fresh "x" in
      let Hx := fresh "Hx" in
      remember (compressTokens oracle T A window st w h) as x eqn:Hx;
      revert Hx;
      unfold compressTokens; unfold bind at 1;
      let rf := fresh "rf" in
      destruct (array_filter_silent (tokens st) w h) as [rf ->];
      destruct window as [[| |[? []]]];
      destruct st as [[?|] ? ?];
      destruct rf as [[|? [|]]|];
      unfold compressTokens_try, getProvider;
      unfold_monad; cbn;
      repeat run_step;
      intros ->
  end.

(** C3. In a run of [compressTokens] where the compression library's
    selection answers an empty list, the handler throws "No input accounts
    found for compression." into its own [catch] block: no compression
    instruction is built and no compression transaction is handed to the
    provider anywhere in the run, the error is reported on the console,
    the failure alert is the last call, and the handler returns. *)
Theorem compressTokens_empty_selection_aborts (window : Window) (st : State)
    (w : W) (h : heap) :
  let run :=
    compressTokens oracle TOKEN_PROGRAM_ID ASSOCIATED_TOKEN_PROGRAM_ID window st w h in
  existsb selection_empty (trace_of run) = true ->
  outcome_of run = Ok tt
  /\ existsb (is_caught (Error "No input accounts found for compression."))
       (trace_of run) = true
  /\ forallb (fun e => negb (is_compress_build e)) (trace_of run) = true
  /\ forallb (fun e => negb (is_compress_submit e)) (trace_of run) = true
  /\ last (trace_of run) = Some failure_alert.
Proof.
  intros run. subst run.
  run_compressTokens window st w h.
  all: simpl_trace.
  all: try (intros [=]; fail).
  all: intros _; repeat split.
  all: repeat first [reflexivity | apply last_app_nonempty | apply last_cons_nonempty].
Qed.

(** C2. In a run of [compressTokens] where [getAccountInfo] answers [null]:
    the calls that follow are, each as long as the one before returned, the
    blockhash query, the signing by the ephemeral payer of a transaction
    made of the creation instruction, with that blockhash and the payer as
    fee payer, its hand-over to the provider and the confirmation of the
    signature the provider returned; and the compression transaction is
    handed to the provider only after a creation transaction has been
    signed, handed over and confirmed, in that order.  In a run where
    [getAccountInfo] answers an account, no creation transaction is handed
    to the provider. *)
Theorem compressTokens_creates_account_first (window : Window) (st : State)
    (w : W) (h : heap) :
  let t :=
    trace_of
      (compressTokens oracle TOKEN_PROGRAM_ID ASSOCIATED_TOKEN_PROGRAM_ID window st w h) in
  (existsb account_missing t = true ->
   exists k ata r1,
     t !! k = Some (Ev (GetAccountInfo ata) (Ok None))
     /\ t !! (k + 1) = Some (Ev GetLatestBlockhash r1)
     /\ forall blockhash, r1 = Ok blockhash ->
        exists tx payer r2,
          t !! (k + 2) = Some (Ev (TransactionSign tx payer) r2)
          /\ is_create_tx tx = true
          /\ recentBlockhash tx = Some blockhash
          /\ feePayer tx = Some (kp_publicKey payer)
          /\ (r2 = Ok tt ->
              exists provider r3,
                t !! (k + 3)
                = Some (Ev (SignAndSendTransaction provider (set_signers [payer] tx)) r3)
                /\ forall sig, r3 = Ok sig ->
                   exists r4, t !! (k + 4) = Some (Ev (ConfirmTransaction sig) r4)))
  /\ (existsb account_missing t = true ->
      forall n e,
        t !! n = Some e -> is_compress_submit e = true ->
        exists k i j tx payer provider sig,
          k < i /\ i < j /\ j < n
          /\ t !! k = Some (Ev (TransactionSign tx payer) (Ok tt))
          /\ is_create_tx tx = true
          /\ t !! i = Some (Ev (SignAndSendTransaction provider (set_signers [payer] tx))
                               (Ok sig))
          /\ t !! j = Some (Ev (ConfirmTransaction sig) (Ok tt)))
  /\ (existsb account_found t = true ->
      forallb (fun e => negb (is_create_submit e)) t = true).
Proof.
  intros t. subst t.
  run_compressTokens window st w h.
  all: unfold trace_of; cbn [fst snd]; split; [|split];
    [ intros Hmiss
    | intros Hmiss idx ev Hidx Hev
    | simpl_trace; intros Hfound; first [ discriminate Hfound | reflexivity ] ].
  all: match type of Hmiss with
       | existsb _ ?T = true =>
           try (assert (Hf : existsb account_missing T = false)
                  by (simpl_trace; reflexivity);
                rewrite Hf in Hmiss; discriminate Hmiss)
       end.
  all: match goal with
       | Hidx : ?T !! _ = Some _ |- _ =>
           try (assert (Hf : existsb is_compress_submit T = false)
                  by (simpl_trace; reflexivity);
                rewrite (lookup_existsb _ _ _ _ Hidx Hev) in Hf; discriminate Hf)
       | _ => idtac
       end.
  all: match goal with
       | Hidx : _ !! _ = Some _ |- _ =>
           exists 5, 6, 7; eexists _, _, _, _;
           split; [lia|]; split; [lia|]; split;
           [ do 8 (destruct idx as [|idx];
                   [cbn in Hidx; injection Hidx as <-; cbn in Hev; discriminate Hev|]);
             lia
           | repeat split ]
       | _ =>
           exists 3;
           repeat match goal with
             | |- _ /\ _ => split
             | |- exists _, _ => eexists
             | |- _ = _ -> _ =>
                 let Heq := fresh "Heq" in
                 intros Heq;
                 first [ discriminate Heq | injection Heq as <- | clear Heq ]
             | |- forall _, _ => intro
             | |- _ = _ => reflexivity
             end
       end.
Qed.

Lemma amounts_as_claimed_kind (K : event -> bool) (t seg : trace) :
  (forall e, K e = true -> selection_of e = None /\ compress_of e = None) ->
  forallb K seg = true -> Forall (amounts_as_claimed t) seg.
Proof.
  intros HK. apply Forall_of_kind. intros e He.
  destruct (HK e He) as [Hs Hc]. split.
  - intros accounts a. rewrite Hs. discriminate.
  - intros p. rewrite Hc. discriminate.
Qed.

(** Every selection and compress call of a run carries the amounts of
    [amounts_as_claimed]. *)
Lemma compressTokens_amounts_in_trace (window : Window) (st : State)
    (w : W) (h : heap) :
  let t :=
    trace_of
      (compressTokens oracle TOKEN_PROGRAM_ID ASSOCIATED_TOKEN_PROGRAM_ID window st w h) in
  Forall (amounts_as_claimed t) t.
Proof.
  intros t. subst t.
  run_compressTokens window st w h.
  all: unfold trace_of; cbn [fst snd].
  all: match goal with
       | |- Forall (amounts_as_claimed ?T) _ =>
           pose (tr := T);
           assert (Ht : tr = T) by reflexivity;
           change (Forall (amounts_as_claimed tr) T);
           clearbody tr
       end.
  all: repeat
         first
           [ apply Forall_nil_2
           | apply Forall_cons; split
           | apply Forall_app; split
           | match goal with
             | Hs : forallb ?K ?seg = true |- Forall _ ?seg =>
                 apply (amounts_as_claimed_kind K); [|exact Hs];
                 let e := fresh "e" in
                 let Hk := fresh "Hk" in
                 intros e Hk; destruct e as [? c ?]; destruct c;
                 cbn in Hk |- *; first [discriminate Hk | split; reflexivity]
             end ].
  all: split;
    [ intros accs amt Hsel; cbn in Hsel; try discriminate Hsel
    | intros prm Hcmp; cbn in Hcmp;
      first [ discriminate Hcmp | injection Hcmp as <-; reflexivity ] ].
  all: injection Hsel as <- <-; split; [reflexivity|].
  all: eexists _, _, _; split;
    [ rewrite Ht; cbn [In]; repeat first [ left; reflexivity | right ] | ].
  all: match goal with
       | Hd : forall ds, Ok ?a = Ok ds -> _ |- _ =>
           eapply Forall2_impl; [ exact (Hd a eq_refl) | ]
       end.
  all: cbn beta; intros d acc [Hp _]; rewrite Ht.
  all: repeat (progress (cbn; rewrite ?existsb_app)); rewrite Hp; reflexivity.
Qed.

(** When the map over the token accounts throws, one of its calls threw. *)
Lemma array_map_toParsedAccount_threw (publicKey : PublicKey)
    (l : list TokenAccountEntry) (w : W) (h : heap) r t w' h' :
  array_map (toParsedAccount oracle publicKey) l w h = (r, t, w', h') ->
  forall e, r = Err e -> existsb threw t = true.
Proof.
  revert w h r t w' h'. induction l as [|a l IH]; intros w h r t w' h' H.
  - cbn in H. unfold ret in H. injection H as <- <- <- <-. intros e [=].
  - cbn [array_map] in H. unfold bind at 1 in H.
    unfold toParsedAccount at 1 in H. unfold_monad_in H.
    destruct (oracle _ (NewBN _) w) as [[v|e0] w1]; cbn in H.
    2: { injection H as <- <- <- <-. reflexivity. }
    destruct (oracle _ (NewPublicKey _) w1) as [[k|e0] w2]; cbn in H.
    2: { injection H as <- <- <- <-. reflexivity. }
    destruct (array_map (toParsedAccount oracle publicKey) l w2 h)
      as [[[r0 t0] w0] h0] eqn:E0.
    specialize (IH _ _ _ _ _ _ E0).
    destruct r0 as [ds0|e0]; cbn in H; injection H as <- <- <- <-.
    + intros e [=].
    + intros e _. cbn. exact (IH e0 eq_refl).
Qed.

Lemma threw_segment (t : trace) :
  existsb threw t = true -> forallb (fun e => negb (threw e)) t = false.
Proof.
  induction t as [|e t IH]; cbn; [discriminate|].
  destruct (threw e); cbn; [reflexivity|exact IH].
Qed.

(** Find an event in a trace made of known events and opaque segments. *)
Ltac find_in :=
  cbn [In];
  first
    [ left; reflexivity
    | right; find_in
    | apply in_or_app; first [ left; find_in | right; find_in ] ].

(** A step that also records that a failed map had a call that threw. *)
Ltac run_step_threw :=
  first
    [ match goal with
      | |- context [array_map (toParsedAccount oracle ?pk) ?l ?w ?h] =>
          let Hthrew := fresh "Hthrew" in
          pose proof (array_map_toParsedAccount_threw pk l w h) as Hthrew;
          let rm := fresh "rm" in
          let tm := fresh "tm" in
          let wm := fresh "w" in
          let hm := fresh "h" in
          let Em := fresh "Em" in
          let Hcalls := fresh "Hcalls" in
          let Hdesc := fresh "Hdesc" in
          destruct (array_map (toParsedAccount oracle pk) l w h)
            as [[[rm tm] wm] hm] eqn:Em;
          specialize (Hthrew _ _ _ _ eq_refl);
          apply array_map_toParsedAccount in Em;
          destruct Em as (-> & Hcalls & Hdesc);
          destruct rm;
          [ clear Hthrew | specialize (Hthrew _ eq_refl) ];
          cbn
      end
    | run_step ].

(** A ticked reference is in the store. *)
Lemma is_selected_stored (h : heap) (r : ref) :
  is_selected h r = true -> exists token, h !! r = Some token.
Proof.
  unfold is_selected. destruct (h !! r) as [token|]; [|discriminate].
  intros _. exists token. reflexivity.
Qed.

(** Both calls are made: from a token list of the component with exactly
    one ticked record, a wallet key and the Phantom handle, a run in which
    no outside call throws and the selection answers a first account with
    an address passes 10^8 to the selection and to the compress builder. *)
Lemma compressTokens_makes_both_calls (window : Window) (st : State)
    (w : W) (h : heap) :
  let t :=
    trace_of
      (compressTokens oracle TOKEN_PROGRAM_ID ASSOCIATED_TOKEN_PROGRAM_ID window st w h) in
  wf h (tokens st) ->
  length (List.filter (is_selected h) (tokens st)) = 1 ->
  walletKey st <> None ->
  (exists p, solana window = Injected p /\ isPhantom p = true) ->
  forallb (fun e => negb (threw e)) t = true ->
  existsb selection_empty t = false ->
  existsb selection_without_address t = false ->
  exists accounts r,
    In (Ev (SelectMinCompressedTokenAccountsForTransfer accounts 100000000%Z) r) t
    /\ exists p r',
         In (Ev (CompressedTokenProgram_compress p) r') t
         /\ cp_amount p = 100000000%Z.
Proof.
  intros t [_ Hin] Hlen Hkey (prv & Hinj & Hph). subst t.
  destruct st as [[k|] toks sig]; [|exfalso; apply Hkey; reflexivity].
  destruct window as [inj]. cbn [solana] in Hinj. subst inj.
  destruct prv as [pid ph]. cbn [isPhantom] in Hph. subst ph.
  cbn [tokens] in Hin, Hlen. clear Hkey.
  destruct (List.filter (is_selected h) toks) as [|r0 [|]] eqn:Hsel;
    try discriminate Hlen.
  assert (Htok : exists token, h !! r0 = Some token).
  { apply is_selected_stored.
    assert (Hr : In r0 (List.filter (is_selected h) toks))
      by (rewrite Hsel; left; reflexivity).
    apply List.filter_In in Hr. apply Hr. }
  destruct Htok as [token Htok]. clear Hlen.
  match goal with
  | |- context [compressTokens oracle ?T ?A ?win ?s w h] =>
      let x := fresh "x" in
      let Hx := fresh "Hx" in
      remember (compressTokens oracle T A win s w h) as x eqn:Hx;
      revert Hx;
      unfold compressTokens; unfold bind at 1;
      cbn [tokens];
      rewrite (array_filter_selected toks w h Hin), Hsel;
      unfold compressTokens_try, getProvider;
      unfold_monad; cbn;
      repeat run_step_threw;
      intros ->;
      first [ discriminate Htok | injection Htok as -> | idtac ]
  end.
  all: unfold trace_of; cbn [fst snd].
  all: simpl_trace.
  all: repeat match goal with
         | Ha : ca_address _ = _ |- _ => rewrite Ha; clear Ha
         end.
  all: repeat match goal with
         | Ht : existsb threw ?seg = true |- _ =>
             rewrite (threw_segment seg Ht); clear Ht
         end.
  all: simpl_trace; rewrite ?andb_false_r.
  all: intros Hquiet Hempty Haddr.
  all: first
         [ discriminate Hquiet
         | discriminate Hempty
         | discriminate Haddr
         | eexists _, _; split; [find_in|];
           eexists _, _; split; [find_in|reflexivity] ].
Qed.

(** C10. In every run of [compressTokens], each call to the compression
    library's selection and each call to its compress builder is passed the
    amount 10^8, whatever the token list, the balances and the answers of
    the outside; and the descriptors passed to the selection carry, as
    amount, the answer of [new BN] on the [uiAmountString] of the token
    account at the same position of the RPC answer.  The calls are made:
    with one ticked record, a wallet key and the Phantom handle, a run in
    which no outside call throws and the selection answers a first account
    with an address passes 10^8 to both. *)
Theorem compressTokens_fixed_amount (window : Window) (st : State)
    (w : W) (h : heap) :
  let t :=
    trace_of
      (compressTokens oracle TOKEN_PROGRAM_ID ASSOCIATED_TOKEN_PROGRAM_ID window st w h) in
  Forall (amounts_as_claimed t) t
  /\ (wf h (tokens st) ->
      length (List.filter (is_selected h) (tokens st)) = 1 ->
      walletKey st <> None ->
      (exists p, solana window = Injected p /\ isPhantom p = true) ->
      forallb (fun e => negb (threw e)) t = true ->
      existsb selection_empty t = false ->
      existsb selection_without_address t = false ->
      exists accounts r,
        In (Ev (SelectMinCompressedTokenAccountsForTransfer accounts 100000000%Z) r) t
        /\ exists p r',
             In (Ev (CompressedTokenProgram_compress p) r') t
             /\ cp_amount p = 100000000%Z).
Proof.
  intros t. split.
  - apply compressTokens_amounts_in_trace.
  - apply compressTokens_makes_both_calls.
Qed.

(** X24. The log lookup of the [catch] block is made for the [signature]
    of the render the handler was created in, never for another one: a
    run of [compressTokens] that calls [getTransaction(s)] started from a
    state whose stored signature is [s]. *)
Lemma compressTokens_looks_up_render_signature (window : Window) (st : State)
    (w : W) (h : heap) (s : string) :
  existsb (fetches_logs_of s)
    (trace_of
       (compressTokens oracle TOKEN_PROGRAM_ID ASSOCIATED_TOKEN_PROGRAM_ID window st w h))
  = true ->
  signature st = Some s.
Proof.
  run_compressTokens window st w h.
  all: unfold trace_of; cbn [fst snd].
  all: repeat (progress (cbn; rewrite ?existsb_app, ?orb_false_r;
                         try rewrite (existsb_none is_descriptor_call (fetches_logs_of s))
                           by (first [kind_excl | assumption]))).
  all: try (intros [=]; fail).
  all: match goal with Hsig : forall s, _ -> signature _ = Some s |- _ => apply Hsig end.
Qed.

(** ** The token list holds distinct records of the store *)

Lemma next_state_tokens (st : State) (t : trace) :
  forallb (fun e => negb (is_SetTokens e)) t = true ->
  tokens (next_state st t) = tokens st.
Proof.
  revert st. induction t as [|e t IH]; intros st H; [reflexivity|].
  cbn in H. apply andb_true_iff in H as [He Ht].
  change (tokens (next_state (apply_setter st e) t) = tokens st).
  rewrite (IH _ Ht).
  destruct e as [X c x]. destruct c; cbn in He; try discriminate; reflexivity.
Qed.

Lemma wf_fresh (h : heap) (ts : list TokenInfo) :
  wf (h ++ ts) (seq (length h) (length ts)).
Proof.
  split; [apply NoDup_seq|].
  apply Forall_forall. intros r Hr. apply elem_of_seq in Hr.
  rewrite length_app. lia.
Qed.

Lemma fetchTokens_wf (publicKey : PublicKey) (st : State) (w : W) (h : heap) :
  wf h (tokens st) ->
  wf (heap_of (fetchTokens oracle TOKEN_PROGRAM_ID publicKey w h))
     (tokens (next_state st (trace_of (fetchTokens oracle TOKEN_PROGRAM_ID publicKey w h)))).
Proof.
  intros Hwf.
  destruct (oracle _ (GetParsedTokenAccountsByOwner publicKey
                        (ByProgramId TOKEN_PROGRAM_ID)) w) as [[l|e] w1] eqn:E.
  - rewrite (fetchTokens_ok _ _ _ _ _ E). cbn.
    rewrite <- (length_map token_of l). apply wf_fresh.
  - rewrite (fetchTokens_err _ _ _ _ _ E). cbn. exact Hwf.
Qed.

(** [compressTokens] writes neither the store nor the token list. *)
Lemma compressTokens_frame (window : Window) (st : State) (w : W) (h : heap) :
  let run :=
    compressTokens oracle TOKEN_PROGRAM_ID ASSOCIATED_TOKEN_PROGRAM_ID window st w h in
  heap_of run = h
  /\ forallb (fun e => negb (is_SetTokens e)) (trace_of run) = true.
Proof.
  intros run. subst run.
  run_compressTokens window st w h.
  all: split; [reflexivity|].
  all: simpl_trace; reflexivity.
Qed.

Lemma handle_wf (a : action) (window : Window) (st : State) (w : W) (h : heap) :
  wf h (tokens st) ->
  let run :=
    handle oracle TOKEN_PROGRAM_ID ASSOCIATED_TOKEN_PROGRAM_ID a window st w h in
  wf (heap_of run) (tokens (next_state st (trace_of run))).
Proof.
  intros Hwf run. subst run. destruct a as [| |i| |k| |[k|]]; cbn [handle].
  - (* connectWallet *)
    unfold connectWallet, getProvider.
    destruct window as [[| |[pid []]]]; unfold_monad; cbn;
      repeat answer oracle; try exact Hwf.
    match goal with
    | |- context [fetchTokens oracle ?T ?k ?w ?h] =>
        pose proof (fetchTokens_wf k
                      {| walletKey := Some k; tokens := tokens st;
                         signature := signature st |} w h Hwf) as Hf;
        pose proof (fetchTokens_returns k w h) as Hr;
        destruct (fetchTokens oracle T k w h) as [[[rf tf] wf'] hf]
    end.
    cbn in Hf, Hr. subst rf. cbn. exact Hf.
  - (* disconnectWallet *)
    unfold disconnectWallet, getProvider.
    destruct window as [[| |[pid []]]]; unfold_monad; cbn;
      repeat answer oracle; try exact Hwf.
    split; [constructor|constructor].
  - (* handleCheckboxChange *)
    destruct (tokens st !! i) as [r|] eqn:Er.
    + destruct Hwf as [Hnd Hin].
      assert (Hr : r < length h).
      { rewrite Forall_forall in Hin. apply Hin. eapply list_elem_of_lookup_2; eauto. }
      destruct (lookup_lt_is_Some_2 _ _ Hr) as [t Et].
      rewrite (handleCheckboxChange_run _ _ _ _ _ _ Er Et). cbn.
      split; [exact Hnd|]. now rewrite length_insert.
    + unfold handleCheckboxChange. rewrite Er. exact Hwf.
  - (* compressTokens *)
    destruct (compressTokens_frame window st w h) as [-> Hs].
    now rewrite (next_state_tokens _ _ Hs).
  - (* connect event *)
    unfold on_connect. unfold_monad. repeat answer oracle.
    match goal with
    | |- context [fetchTokens oracle ?T ?k ?w ?h] =>
        pose proof (fetchTokens_wf k
                      {| walletKey := Some k; tokens := tokens st;
                         signature := signature st |} w h Hwf) as Hf;
        destruct (fetchTokens oracle T k w h) as [[[rf tf] wf'] hf]
    end.
    cbn in Hf. cbn. exact Hf.
  - (* disconnect event *)
    unfold on_disconnect. unfold_monad. repeat answer oracle.
    split; constructor.
  - (* accountChange event, with an account *)
    unfold on_accountChange. unfold_monad. repeat answer oracle.
    match goal with
    | |- context [fetchTokens oracle ?T ?k ?w ?h] =>
        pose proof (fetchTokens_wf k
                      {| walletKey := Some k; tokens := tokens st;
                         signature := signature st |} w h Hwf) as Hf;
        destruct (fetchTokens oracle T k w h) as [[[rf tf] wf'] hf]
    end.
    cbn in Hf. cbn. exact Hf.
  - (* accountChange event, without *)
    unfold on_accountChange. unfold_monad. repeat answer oracle. exact Hwf.
Qed.

(** X23. Every token list the component comes to hold, through any
    sequence of clicks and provider events from its first render and
    whatever the outside answers, is a list of distinct records of the
    store: the hypothesis of C1 and C5 is an invariant. *)
Theorem wf_preserved (h : heap) (st : State) :
  reachable oracle TOKEN_PROGRAM_ID ASSOCIATED_TOKEN_PROGRAM_ID h st ->
  wf h (tokens st).
Proof.
  induction 1 as [h|h st a window w Hreach IH].
  - split; constructor.
  - now apply handle_wf.
Qed.

(** * Further properties of the component *)

(** ** Wallet Connector *)

(** Answer the RPC query of the [fetchTokens] the run has reached. *)
Ltac answer_fetch :=
  match goal with
  | |- context [fetchTokens oracle ?T ?k ?w ?h] =>
      let E := fresh "E" in
      destruct (oracle _ (GetParsedTokenAccountsByOwner k (ByProgramId T)) w)
        as [[?|?] ?] eqn:E;
      [ rewrite (fetchTokens_ok k _ w _ h E)
      | rewrite (fetchTokens_err k _ w _ h E) ];
      cbn
  end.

(** X1. When Phantom is injected and its connect request returns a key,
    [connectWallet] returns, the wallet key of the next render is that
    key, the signature is kept, and the run holds exactly one token
    query: the one for that key under the token program, made after the
    key was set.  No install page is opened. *)
Theorem connectWallet_sets_key_and_fetches_once (window : Window) (p : Provider)
    (k : PublicKey) (st : State) (w w1 : W) (h : heap) :
  solana window = Injected p -> isPhantom p = true ->
  oracle _ (ProviderConnect p) w = (Ok k, w1) ->
  let run := connectWallet oracle TOKEN_PROGRAM_ID window w h in
  let st' := next_state st (trace_of run) in
  outcome_of run = Ok tt
  /\ walletKey st' = Some k
  /\ signature st' = signature st
  /\ (exists r rest,
        trace_of run
        = Ev (ProviderConnect p) (Ok k)
            :: Ev (SetWalletKey (Some k)) tt
            :: Ev (ConsoleLog "Connected with publicKey:" (Some (DString (toBase58 k)))) tt
            :: Ev (GetParsedTokenAccountsByOwner k (ByProgramId TOKEN_PROGRAM_ID)) r
            :: rest
        /\ forallb (fun e => negb (is_network e)) rest = true)
  /\ forallb (fun e => negb (is_WindowOpen e)) (trace_of run) = true.
Proof.
  intros E1 E2 E3 run st'. subst st' run.
  remember (connectWallet oracle TOKEN_PROGRAM_ID window w h) as x eqn:Hx.
  revert Hx. unfold connectWallet. unfold bind at 1.
  rewrite (getProvider_some _ _ _ _ E1 E2).
  unfold_monad. rewrite E3. cbn. repeat answer oracle.
  answer_fetch; intros ->; cbn; destruct st; cbn; repeat split;
    eexists _, _; split; reflexivity.
Qed.

(** X2. When Phantom is injected and its connect request is rejected,
    [connectWallet] returns after logging the error: no setter is called,
    no token query is made, and the store is as it was. *)
Theorem connectWallet_rejected_keeps_state (window : Window) (p : Provider)
    (e : exn) (st : State) (w w1 : W) (h : heap) :
  solana window = Injected p -> isPhantom p = true ->
  oracle _ (ProviderConnect p) w = (Err e, w1) ->
  let run := connectWallet oracle TOKEN_PROGRAM_ID window w h in
  outcome_of run = Ok tt
  /\ trace_of run
     = [Ev (ProviderConnect p) (Err e);
        Ev (ConsoleLog "Connection error:" (Some (DError e))) tt]
  /\ next_state st (trace_of run) = st
  /\ heap_of run = h.
Proof.
  intros E1 E2 E3 run. subst run.
  remember (connectWallet oracle TOKEN_PROGRAM_ID window w h) as x eqn:Hx.
  revert Hx. unfold connectWallet. unfold bind at 1.
  rewrite (getProvider_some _ _ _ _ E1 E2).
  unfold_monad. rewrite E3. cbn. repeat answer oracle.
  intros ->. cbn. repeat split.
Qed.

(** X3. None of the wallet functions lets an error escape: whatever the
    window holds and whatever the provider and the RPC endpoint answer,
    [connectWallet], [disconnectWallet], [fetchTokens] and the three
    provider listeners return normally. *)
Theorem wallet_functions_return (window : Window) (k : PublicKey)
    (change : option PublicKey) (w : W) (h : heap) :
  outcome_of (connectWallet oracle TOKEN_PROGRAM_ID window w h) = Ok tt
  /\ outcome_of (disconnectWallet oracle window w h) = Ok tt
  /\ outcome_of (fetchTokens oracle TOKEN_PROGRAM_ID k w h) = Ok tt
  /\ outcome_of (on_connect oracle TOKEN_PROGRAM_ID k w h) = Ok tt
  /\ outcome_of (on_disconnect oracle w h) = Ok tt
  /\ outcome_of (on_accountChange oracle TOKEN_PROGRAM_ID change w h) = Ok tt.
Proof.
  split; [|split; [|split; [|split; [|split]]]].
  - unfold connectWallet, getProvider.
    destruct window as [[| |[pid []]]]; unfold_monad; cbn;
      repeat answer oracle; try reflexivity.
    answer_fetch; reflexivity.
  - unfold disconnectWallet, getProvider.
    destruct window as [[| |[pid []]]]; unfold_monad; cbn;
      repeat answer oracle; reflexivity.
  - destruct (oracle _ (GetParsedTokenAccountsByOwner k
                          (ByProgramId TOKEN_PROGRAM_ID)) w) as [[l|e] w1] eqn:E.
    + now rewrite (fetchTokens_ok _ _ _ _ _ E).
    + now rewrite (fetchTokens_err _ _ _ _ _ E).
  - unfold on_connect. unfold_monad. repeat answer oracle.
    answer_fetch; reflexivity.
  - unfold on_disconnect. unfold_monad. repeat answer oracle. reflexivity.
  - unfold on_accountChange. destruct change as [k'|]; unfold_monad;
      repeat answer oracle; [answer_fetch|]; reflexivity.
Qed.

(** X4. The provider listeners mirror the provider into the state.  On
    [connect], and on [accountChange] with an account, the wallet key of
    the next render is the key of the event and one token query is made,
    for that key: the run is a console line, the setter of the wallet key
    and a run of [fetchTokens] for that key, and nothing else; on
    [accountChange] without an account the run is one console line and
    nothing else, and the state is kept; on [disconnect] the run is a
    console line and the two setters that clear the wallet key and empty
    the token list, and nothing else: no network call. *)
Theorem provider_events_mirrored (k : PublicKey) (st : State) (w : W) (h : heap) :
  let connect := trace_of (on_connect oracle TOKEN_PROGRAM_ID k w h) in
  let change := trace_of (on_accountChange oracle TOKEN_PROGRAM_ID (Some k) w h) in
  let nochange := trace_of (on_accountChange oracle TOKEN_PROGRAM_ID None w h) in
  let disconnect := trace_of (on_disconnect oracle w h) in
  (walletKey (next_state st connect) = Some k
   /\ (exists r,
         List.filter is_network connect
         = [Ev (GetParsedTokenAccountsByOwner k (ByProgramId TOKEN_PROGRAM_ID)) r])
   /\ exists w',
        connect
        = Ev (ConsoleLog "Connected to wallet:" (Some (DString (toBase58 k)))) tt
          :: Ev (SetWalletKey (Some k)) tt
          :: trace_of (fetchTokens oracle TOKEN_PROGRAM_ID k w' h))
  /\ (walletKey (next_state st change) = Some k
      /\ (exists r,
            List.filter is_network change
            = [Ev (GetParsedTokenAccountsByOwner k (ByProgramId TOKEN_PROGRAM_ID)) r])
      /\ exists w',
           change
           = Ev (ConsoleLog ("Switched to new wallet: " +:+ toBase58 k) None) tt
             :: Ev (SetWalletKey (Some k)) tt
             :: trace_of (fetchTokens oracle TOKEN_PROGRAM_ID k w' h))
  /\ (next_state st nochange = st
      /\ List.filter is_network nochange = []
      /\ nochange
         = [Ev (ConsoleLog "Account changed, but no account is currently connected."
                  None) tt])
  /\ (walletKey (next_state st disconnect) = None
      /\ tokens (next_state st disconnect) = []
      /\ signature (next_state st disconnect) = signature st
      /\ List.filter is_network disconnect = []
      /\ disconnect
         = [Ev (ConsoleLog "Disconnected from wallet" None) tt;
            Ev (SetWalletKey None) tt;
            Ev (SetTokens []) tt]).
Proof.
  intros connect change nochange disconnect.
  subst connect change nochange disconnect.
  split; [|split; [|split]].
  - unfold on_connect. unfold_monad. repeat answer oracle.
    split; [|split].
    + answer_fetch; reflexivity.
    + answer_fetch; eexists; reflexivity.
    + match goal with
      | |- context [fetchTokens oracle _ _ ?w1 _] =>
          exists w1;
          destruct (fetchTokens oracle TOKEN_PROGRAM_ID k w1 h) as [[[? ?] ?] ?]
      end.
      reflexivity.
  - unfold on_accountChange. unfold_monad. repeat answer oracle.
    split; [|split].
    + answer_fetch; reflexivity.
    + answer_fetch; eexists; reflexivity.
    + match goal with
      | |- context [fetchTokens oracle _ _ ?w1 _] =>
          exists w1;
          destruct (fetchTokens oracle TOKEN_PROGRAM_ID k w1 h) as [[[? ?] ?] ?]
      end.
      reflexivity.
  - unfold on_accountChange. unfold_monad. repeat answer oracle.
    repeat split.
  - unfold on_disconnect. unfold_monad. repeat answer oracle.
    repeat split.
Qed.

(** X5. The mount effect looks for the provider: with Phantom injected it
    registers the three listeners, [connect], [disconnect] and
    [accountChange], in that order, and opens nothing; without, it opens
    the install page, as a click on Connect would.  It calls no setter
    and makes no network call. *)
Theorem useEffect_mount_registers_or_redirects (window : Window) (st : State)
    (w : W) (h : heap) :
  let run := useEffect_mount oracle window w h in
  outcome_of run = Ok tt
  /\ next_state st (trace_of run) = st
  /\ forallb (fun e => negb (is_network e)) (trace_of run) = true
  /\ (forall p, solana window = Injected p -> isPhantom p = true ->
        trace_of run
        = [Ev (ProviderOn p "connect") tt; Ev (ProviderOn p "disconnect") tt;
           Ev (ProviderOn p "accountChange") tt])
  /\ ((forall p, solana window = Injected p -> isPhantom p = false) ->
        trace_of run = [Ev (WindowOpen "https://phantom.app/" "_blank") tt]).
Proof.
  intros run. subst run. unfold useEffect_mount, getProvider.
  destruct window as [[| |[pid []]]]; unfold_monad; cbn;
    repeat answer oracle; repeat split; try discriminate.
  - intros p [= <-] _. reflexivity.
  - intros H. specialize (H _ eq_refl). discriminate H.
  - intros p [= <-] [=].
Qed.

(** ** Checkbox toggle *)

(** X6. Ticking the same row in two successive renders undoes itself:
    for a token list of the component and a valid index, the second
    [handleCheckboxChange] returns and leaves the store and the token list
    as they were before the first. *)
Theorem handleCheckboxChange_twice_restores (st : State) (i : nat)
    (w w' : W) (h : heap) :
  wf h (tokens st) ->
  i < length (tokens st) ->
  let run1 := handleCheckboxChange oracle st i w h in
  let st1 := next_state st (trace_of run1) in
  let run2 := handleCheckboxChange oracle st1 i w' (heap_of run1) in
  outcome_of run2 = Ok tt
  /\ heap_of run2 = h
  /\ tokens (next_state st1 (trace_of run2)) = tokens st.
Proof.
  intros [Hnd Hin] Hi run1 st1 run2. subst run2 st1 run1.
  destruct (lookup_lt_is_Some_2 _ _ Hi) as [r Er].
  assert (Hr : r < length h).
  { rewrite Forall_forall in Hin. apply Hin. eapply list_elem_of_lookup_2; eauto. }
  destruct (lookup_lt_is_Some_2 _ _ Hr) as [t Et].
  rewrite (handleCheckboxChange_run _ _ _ _ _ _ Er Et). cbn.
  erewrite handleCheckboxChange_run;
    [| exact Er | apply list_lookup_insert_eq; exact Hr].
  cbn. repeat split.
  rewrite list_insert_insert_eq, negb_involutive.
  apply list_insert_id. rewrite Et. now destruct t.
Qed.

(** X7. An index outside the token list makes [handleCheckboxChange]
    throw a [TypeError] (it reads [selected] of [undefined]) before
    anything is written: no call, no setter, the store untouched. *)
Theorem handleCheckboxChange_out_of_range_throws (st : State) (i : nat)
    (w : W) (h : heap) :
  length (tokens st) <= i ->
  let run := handleCheckboxChange oracle st i w h in
  (exists msg, outcome_of run = Err (TypeError msg))
  /\ trace_of run = []
  /\ heap_of run = h.
Proof.
  intros H run. subst run. unfold handleCheckboxChange.
  rewrite (lookup_ge_None_2 _ _ H). cbn. repeat split. eexists. reflexivity.
Qed.

(** ** Token Lister, then Compression Orchestrator *)

Lemma is_selected_fresh (h : heap) (ts : list TokenInfo) :
  Forall (fun t => selected t = false) ts ->
  List.filter (is_selected (h ++ ts)) (seq (length h) (length ts)) = [].
Proof.
  revert h. induction ts as [|t ts IH]; intros h Hs; [reflexivity|].
  apply Forall_cons in Hs as [Ht Hs].
  cbn [length seq List.filter]. unfold is_selected at 1.
  rewrite lookup_app_r by lia. rewrite Nat.sub_diag. cbn. rewrite Ht.
  specialize (IH (h ++ [t]) Hs). rewrite length_app in IH. cbn in IH.
  rewrite <- app_assoc in IH. cbn in IH.
  now replace (length h + 1) with (S (length h)) in IH by lia.
Qed.

(** X8. A refetch resets the selection: in the render that follows a
    [fetchTokens] whose query answered, no record is ticked, so
    [compressTokens] only shows the select-one alert, whatever was ticked
    before and whatever accounts the wallet holds. *)
Theorem fetchTokens_then_compressTokens_asks_selection (publicKey : PublicKey)
    (accounts : list TokenAccountEntry) (window : Window) (st : State)
    (w w1 w' : W) (h : heap) :
  oracle _ (GetParsedTokenAccountsByOwner publicKey (ByProgramId TOKEN_PROGRAM_ID)) w
    = (Ok accounts, w1) ->
  let fetched := fetchTokens oracle TOKEN_PROGRAM_ID publicKey w h in
  let st' := next_state st (trace_of fetched) in
  let run :=
    compressTokens oracle TOKEN_PROGRAM_ID ASSOCIATED_TOKEN_PROGRAM_ID window st' w'
      (heap_of fetched) in
  outcome_of run = Ok tt /\ trace_of run = [select_one_alert].
Proof.
  intros H fetched st' run. subst run st' fetched.
  rewrite (fetchTokens_ok _ _ _ _ _ H). cbn.
  destruct (compressTokens_not_one window
              {| walletKey := walletKey st;
                 tokens := seq (length h) (length accounts);
                 signature := signature st |} w' (h ++ map token_of accounts))
    as (w2 & E).
  - cbn. rewrite <- (length_map token_of accounts). apply wf_fresh.
  - cbn. rewrite <- (length_map token_of accounts), is_selected_fresh.
    + cbn. lia.
    + apply Forall_forall. intros t Ht. apply list_elem_of_fmap in Ht as (a & -> & _).
      reflexivity.
  - destruct st. cbn in *. now rewrite E.
Qed.

(** ** The rendered tree *)

Lemma render_rows_fresh (h : heap) (ts : list TokenInfo) (index : nat) :
  render_rows (h ++ ts) index (seq (length h) (length ts))
  = Some (imap (fun i t => render_row (index + i) t) ts).
Proof.
  revert h index. induction ts as [|t ts IH]; intros h index; [reflexivity|].
  cbn [length seq render_rows imap].
  rewrite lookup_app_r by lia. rewrite Nat.sub_diag. cbn [lookup list_lookup].
  specialize (IH (h ++ [t]) (S index)). rewrite length_app in IH. cbn in IH.
  rewrite <- app_assoc in IH. cbn in IH.
  replace (length h + 1) with (S (length h)) in IH by lia.
  rewrite IH. rewrite Nat.add_0_r. f_equal. f_equal.
  apply imap_ext. intros i x _. cbn. f_equal. lia.
Qed.

(** X9. What a connected wallet sees after a fetch: when the query of
    [fetchTokens] answers N accounts, the next render is the Disconnect
    button, N rows and the Compress button; row [i] has key [i], an
    unticked checkbox wired to [handleCheckboxChange(i)], and the text
    made of the mint, " - " and the [uiAmountString] of the i-th
    account. *)
Theorem render_after_fetchTokens (publicKey : PublicKey)
    (accounts : list TokenAccountEntry) (st : State) (w w1 : W) (h : heap) :
  oracle _ (GetParsedTokenAccountsByOwner publicKey (ByProgramId TOKEN_PROGRAM_ID)) w
    = (Ok accounts, w1) ->
  walletKey st <> None ->
  let fetched := fetchTokens oracle TOKEN_PROGRAM_ID publicKey w h in
  render (heap_of fetched) (next_state st (trace_of fetched))
  = Some (Div None
            [Div None
               [Button ClickDisconnect "Disconnect Wallet";
                Div None
                  (imap (fun i a =>
                           Div (Some i)
                             [Checkbox false (ClickCheckbox i);
                              Text (info_mint (parsed_info a));
                              Text " - ";
                              Text (uiAmountString (tokenAmount (parsed_info a)))])
                        accounts);
                Button ClickCompress "Compress Tokens"]]).
Proof.
  intros H Hk fetched. subst fetched.
  rewrite (fetchTokens_ok _ _ _ _ _ H). cbn.
  unfold render. cbn. destruct (walletKey st) as [k|]; [|congruence].
  rewrite <- (length_map token_of accounts), render_rows_fresh.
  rewrite imap_fmap. reflexivity.
Qed.

Lemma render_rows_insert_other (h : heap) (l : list nat) (index r : nat)
    (t : TokenInfo) :
  r ∉ l ->
  render_rows (<[r := t]> h) index l = render_rows h index l.
Proof.
  revert index. induction l as [|r' l IH]; intros index Hr; [reflexivity|].
  apply not_elem_of_cons in Hr as [Hne Hr].
  cbn [render_rows]. rewrite list_lookup_insert_ne by congruence.
  now rewrite IH.
Qed.

Lemma render_rows_toggle (h : heap) (l : list nat) (index i r : nat)
    (t : TokenInfo) (rows : list element) :
  NoDup l -> l !! i = Some r -> h !! r = Some t ->
  render_rows h index l = Some rows ->
  render_rows
    (<[r := {| mintAddress := mintAddress t; amount := amount t;
               selected := negb (selected t) |}]> h) index l
  = Some (alter toggle_row i rows).
Proof.
  revert index i rows. induction l as [|r' l IH]; intros index i rows Hnd Hi Ht Hrows;
    [discriminate Hi|].
  apply NoDup_cons in Hnd as [Hnotin Hnd].
  cbn [render_rows] in Hrows |- *.
  destruct i as [|i]; cbn in Hi.
  - injection Hi as ->. rewrite Ht in Hrows.
    rewrite list_lookup_insert_eq by (eapply lookup_lt_Some; eauto).
    rewrite render_rows_insert_other by assumption.
    destruct (render_rows h (S index) l) as [rows'|]; [|discriminate Hrows].
    injection Hrows as <-. reflexivity.
  - assert (Hne : r <> r').
    { intros ->. apply Hnotin. eapply list_elem_of_lookup_2; eauto. }
    rewrite list_lookup_insert_ne by assumption.
    destruct (h !! r') as [t'|]; [|discriminate Hrows].
    destruct (render_rows h (S index) l) as [rows'|] eqn:E; [|discriminate Hrows].
    injection Hrows as <-.
    rewrite (IH (S index) i rows' Hnd Hi Ht E). reflexivity.
Qed.

(** X10. Ticking a row changes that row only, on screen: for a token list
    of the component rendered as [rows], the render that follows
    [handleCheckboxChange(i)] shows the same rows with the checkbox of row
    [i] ticked the other way. *)
Theorem render_rows_after_handleCheckboxChange (st : State) (i : nat)
    (rows : list element) (w : W) (h : heap) :
  wf h (tokens st) ->
  i < length (tokens st) ->
  render_rows h 0 (tokens st) = Some rows ->
  let run := handleCheckboxChange oracle st i w h in
  render_rows (heap_of run) 0 (tokens (next_state st (trace_of run)))
  = Some (alter toggle_row i rows).
Proof.
  intros [Hnd Hin] Hi Hrows run. subst run.
  destruct (lookup_lt_is_Some_2 _ _ Hi) as [r Er].
  assert (Hr : r < length h).
  { rewrite Forall_forall in Hin. apply Hin. eapply list_elem_of_lookup_2; eauto. }
  destruct (lookup_lt_is_Some_2 _ _ Hr) as [t Et].
  rewrite (handleCheckboxChange_run _ _ _ _ _ _ Er Et). cbn.
  now apply render_rows_toggle.
Qed.

Lemma render_rows_total (h : heap) (l : list nat) (index : nat) :
  Forall (fun r => r < length h) l ->
  exists rows,
    render_rows h index l = Some rows
    /\ flat_map actions_of rows = map ClickCheckbox (seq index (length l)).
Proof.
  revert index. induction l as [|r l IH]; intros index Hl; [exists []; split; reflexivity|].
  apply Forall_cons in Hl as [Hr Hl].
  destruct (lookup_lt_is_Some_2 _ _ Hr) as [t Et].
  destruct (IH (S index) Hl) as (rows & E & Ha).
  exists (render_row index t :: rows). cbn [render_rows]. rewrite Et, E.
  split; [reflexivity|]. cbn. now rewrite Ha.
Qed.

(** X11. Every control of a render is wired to an action that returns:
    for a token list of the component the tree exists, its checkboxes are
    wired to [handleCheckboxChange] at the indices of the list, each once
    and in order, beside the Disconnect and Compress buttons (or the
    Connect button alone when no wallet is connected); and each checkbox
    action, run in that render, returns normally. *)
Theorem render_wires_valid_actions (st : State) (w : W) (h : heap) :
  wf h (tokens st) ->
  exists tree,
    render h st = Some tree
    /\ actions_of tree
       = match walletKey st with
         | Some _ =>
             ClickDisconnect
               :: map ClickCheckbox (seq 0 (length (tokens st))) ++ [ClickCompress]
         | None => [ClickConnect]
         end
    /\ forall i, In (ClickCheckbox i) (actions_of tree) ->
         outcome_of (handleCheckboxChange oracle st i w h) = Ok tt.
Proof.
  intros [Hnd Hin]. unfold render.
  destruct (walletKey st) as [k|].
  - destruct (render_rows_total h (tokens st) 0 Hin) as (rows & E & Ha).
    rewrite E. eexists. split; [reflexivity|]. cbn.
    rewrite !app_nil_r, Ha. split; [reflexivity|].
    intros i [Hi | Hi]; [discriminate Hi|].
    apply in_app_or in Hi as [Hi | [Hi | []]]; [|discriminate Hi].
    apply in_map_iff in Hi as (j & [= <-] & Hj). apply in_seq in Hj.
    assert (Hlt : j < length (tokens st)) by lia.
    destruct (lookup_lt_is_Some_2 _ _ Hlt) as [r Er].
    assert (Hr : r < length h).
    { rewrite Forall_forall in Hin. apply Hin. eapply list_elem_of_lookup_2; eauto. }
    destruct (lookup_lt_is_Some_2 _ _ Hr) as [t Et].
    now rewrite (handleCheckboxChange_run _ _ _ _ _ _ Er Et).
  - eexists. split; [reflexivity|]. split; [reflexivity|].
    cbn. intros i [Hi | []]. discriminate Hi.
Qed.

(** ** Compression Orchestrator *)

Lemma filter_kind (K P : event -> bool) (t : trace) :
  (forall e, K e = true -> P e = false) ->
  forallb K t = true -> List.filter P t = [].
Proof.
  intros HK. induction t as [|e t IH]; cbn; [reflexivity|].
  intros H. apply andb_true_iff in H as [He Ht].
  now rewrite (HK e He), (IH Ht).
Qed.

Lemma next_state_kind (K : event -> bool) (t : trace) (s : State) :
  (forall e, K e = true -> is_setter e = false) ->
  forallb K t = true -> fold_left apply_setter t s = s.
Proof.
  intros HK H. apply next_state_no_setter.
  apply (forallb_all K); [|exact H].
  intros e He. now rewrite (HK e He).
Qed.

(** The other fields of the descriptors: what the map callback writes. *)
Lemma array_map_toParsedAccount_fields (publicKey : PublicKey)
    (l : list TokenAccountEntry) (w : W) (h : heap) r t w' h' :
  array_map (toParsedAccount oracle publicKey) l w h = (r, t, w', h') ->
  forall ds, r = Ok ds -> Forall2 (descriptor_of publicKey) l ds.
Proof.
  revert w h r t w' h'. induction l as [|a l IH]; intros w h r t w' h' H.
  - cbn in H. unfold ret in H. injection H as <- <- <- <-.
    intros ds [= <-]. constructor.
  - cbn [array_map] in H. unfold bind at 1 in H.
    unfold toParsedAccount at 1 in H. unfold_monad_in H.
    destruct (oracle _ (NewBN _) w) as [[v|e] w1]; cbn in H.
    2: { injection H as <- <- <- <-. intros ds [=]. }
    destruct (oracle _ (NewPublicKey _) w1) as [[k|e] w2]; cbn in H.
    2: { injection H as <- <- <- <-. intros ds [=]. }
    destruct (array_map (toParsedAccount oracle publicKey) l w2 h)
      as [[[r0 t0] w0] h0] eqn:E0.
    specialize (IH _ _ _ _ _ _ E0).
    destruct r0 as [ds0|e]; cbn in H; injection H as <- <- <- <-.
    + intros ds [= <-]. constructor; [|apply IH; reflexivity].
      repeat split. discriminate.
    + intros ds [=].
Qed.

(** A step that also keeps the fields of the descriptors. *)
Ltac run_step_fields :=
  first
    [ match goal with
      | |- context [array_map (toParsedAccount oracle ?pk) ?l ?w ?h] =>
          let Hfields := fresh "Hfields" in
          pose proof (array_map_toParsedAccount_fields pk l w h) as Hfields;
          let rm := fresh "rm" in
          let tm := fresh "tm" in
          let wm := fresh "w" in
          let hm := fresh "h" in
          let Em := fresh "Em" in
          let Hcalls := fresh "Hcalls" in
          let Hdesc := fresh "Hdesc" in
          destruct (array_map (toParsedAccount oracle pk) l w h)
            as [[[rm tm] wm] hm] eqn:Em;
          specialize (Hfields _ _ _ _ eq_refl);
          apply array_map_toParsedAccount in Em;
          destruct Em as (-> & Hcalls & Hdesc);
          destruct rm;
          cbn
      end
    | run_step ].

(** Symbolic runs of [compressTokens] with the descriptor fields kept,
    and from a token list whose references are in the store. *)
Ltac run_compressTokens_fields window st w h :=
  match goal with
  | |- context [compressTokens oracle ?T ?A window st w h] =>
      let x := fresh "x" in
      let Hx := fresh "Hx" in
      remember (compressTokens oracle T A window st w h) as x eqn:Hx;
      revert Hx;
      unfold compressTokens; unfold bind at 1;
      let rf := fresh "rf" in
      destruct (array_filter_silent (tokens st) w h) as [rf ->];
      destruct window as [[| |[? []]]];
      destruct st as [[?|] ? ?];
      destruct rf as [[|? [|]]|];
      unfold compressTokens_try, getProvider;
      unfold_monad; cbn;
      repeat run_step_fields;
      intros ->
  end.

Ltac run_compressTokens_wf Hin window st w h :=
  match goal with
  | |- context [compressTokens oracle ?T ?A window st w h] =>
      let x := fresh "x" in
      let Hx := fresh "Hx" in
      remember (compressTokens oracle T A window st w h) as x eqn:Hx;
      revert Hx;
      unfold compressTokens; unfold bind at 1;
      rewrite (array_filter_selected (tokens st) w h Hin);
      destruct (List.filter (is_selected h) (tokens st)) as [|? [|]];
      destruct window as [[| |[? []]]];
      destruct st as [[?|] ? ?];
      unfold compressTokens_try, getProvider;
      unfold_monad; cbn;
      repeat run_step;
      intros ->
  end.

(** Prove a property of every event of a trace made of known events and
    opaque segments; [kind_tac] proves it of the events of a segment, the
    known events are left. *)
Ltac forall_trace kind_tac :=
  repeat
    first
      [ apply Forall_nil_2
      | apply Forall_cons; split
      | apply Forall_app; split
      | match goal with
        | Hs : forallb ?K ?seg = true |- Forall _ ?seg =>
            apply (Forall_of_kind K); [|exact Hs];
            let e := fresh "e" in
            let Hk := fresh "Hk" in
            intros e Hk; destruct e as [? c ?]; destruct c;
            cbn in Hk; try discriminate Hk; kind_tac
        end ].

(** Name the trace a property speaks of, so that it is not unfolded. *)
Ltac name_trace :=
  match goal with
  | |- Forall (?P ?T) ?T =>
      let tr := fresh "tr" in
      let Ht := fresh "Ht" in
      pose (tr := T);
      assert (Ht : tr = T) by reflexivity;
      change (Forall (P tr) T);
      clearbody tr
  end.

(** X12. When a run of [compressTokens] ends with the failure alert and
    the [signature] of the render is a non-empty string, the [catch] block
    has asked for the logs of that stored signature. *)
Theorem compressTokens_failure_looks_up_stored_signature (window : Window)
    (st : State) (w : W) (h : heap) (s : string) :
  let t :=
    trace_of
      (compressTokens oracle TOKEN_PROGRAM_ID ASSOCIATED_TOKEN_PROGRAM_ID window st w h) in
  signature st = Some s -> s <> "" ->
  existsb (shows_alert "Compression failed. Check the console for details.") t = true ->
  existsb (fetches_logs_of s) t = true.
Proof.
  intros t. subst t.
  run_compressTokens window st w h.
  all: unfold trace_of; cbn [fst snd signature].
  all: intros Hs Hne; subst.
  all: simpl_trace.
  all: try (intros [=]; fail).
  all: intros _.
  all: match goal with
       | Hsome : forall s, _ -> _ -> existsb (fetches_logs_of s) ?logs = true |- _ =>
           rewrite (Hsome s eq_refl);
           [ rewrite ?orb_true_r; reflexivity
           | cbn; apply negb_true_iff, String.eqb_neq; exact Hne ]
       end.
Qed.

(** X13. [compressTokens] changes nothing of the component but the stored
    signature: the store, the wallet key and the token list of the next
    render are those of this one; the signature is kept unless the
    provider accepted the compression transaction, and is then the
    signature the provider returned, whether or not the confirmation
    succeeds afterwards. *)
Theorem compressTokens_changes_only_signature (window : Window) (st : State)
    (w : W) (h : heap) :
  let run :=
    compressTokens oracle TOKEN_PROGRAM_ID ASSOCIATED_TOKEN_PROGRAM_ID window st w h in
  let st' := next_state st (trace_of run) in
  heap_of run = h
  /\ walletKey st' = walletKey st
  /\ tokens st' = tokens st
  /\ ((signature st' = signature st
       /\ forall s, existsb (compress_submitted s) (trace_of run) = false)
      \/ exists s,
           existsb (compress_submitted s) (trace_of run) = true
           /\ signature st' = Some s).
Proof.
  intros run st'. subst st' run.
  run_compressTokens window st w h.
  all: unfold trace_of, heap_of, next_state; cbn [fst snd].
  all: repeat (progress (cbn [fold_left apply_setter walletKey tokens signature];
                         rewrite ?fold_left_app;
                         repeat match goal with
                           | Hs : forallb ?K ?seg = true
                             |- context [fold_left apply_setter ?seg ?s0] =>
                               rewrite (next_state_kind K seg s0 ltac:(kind_excl) Hs)
                           end)).
  all: split; [reflexivity|]; split; [reflexivity|]; split; [reflexivity|].
  all: first
         [ left; split; [reflexivity|]; intros s; simpl_trace; reflexivity
         | right; eexists; split; [|reflexivity];
           simpl_trace; rewrite String.eqb_refl; reflexivity ].
Qed.

(** X14. From a token list of the component, [compressTokens] always
    returns: no error escapes it, and it shows exactly one alert, as its
    last call: the select-one alert, the success alert or the failure
    alert. *)
Theorem compressTokens_returns_with_one_alert (window : Window) (st : State)
    (w : W) (h : heap) :
  wf h (tokens st) ->
  let run :=
    compressTokens oracle TOKEN_PROGRAM_ID ASSOCIATED_TOKEN_PROGRAM_ID window st w h in
  outcome_of run = Ok tt
  /\ length (List.filter is_alert (trace_of run)) = 1
  /\ (last (trace_of run) = Some select_one_alert
      \/ last (trace_of run) = Some success_alert
      \/ last (trace_of run) = Some failure_alert).
Proof.
  intros [_ Hin] run. subst run.
  run_compressTokens_wf Hin window st w h.
  all: unfold trace_of, outcome_of; cbn [fst snd].
  all: split; [reflexivity|]; split.
  all: try (repeat (progress (cbn; rewrite ?List.filter_app, ?length_app;
                              repeat match goal with
                                | Hs : forallb ?K ?seg = true
                                  |- context [List.filter ?P ?seg] =>
                                    rewrite (filter_kind K P seg ltac:(kind_excl) Hs)
                                end));
            reflexivity).
  all: first
         [ left; reflexivity
         | right; left;
           solve [repeat first [ reflexivity | apply last_app_nonempty
                               | apply last_cons_nonempty ]]
         | right; right;
           solve [repeat first [ reflexivity | apply last_app_nonempty
                               | apply last_cons_nonempty ]] ].
Qed.

(** X15. The success alert is earned: in a run of [compressTokens] that
    shows "Token successfully compressed.", the provider accepted the
    compression transaction and returned a signature, the confirmation
    of that signature returned, and that signature is the one stored for
    the next render. *)
Theorem compressTokens_success_only_after_confirmation (window : Window)
    (st : State) (w : W) (h : heap) :
  let t :=
    trace_of
      (compressTokens oracle TOKEN_PROGRAM_ID ASSOCIATED_TOKEN_PROGRAM_ID window st w h) in
  existsb (shows_alert "Token successfully compressed.") t = true ->
  exists s,
    existsb (compress_submitted s) t = true
    /\ existsb (confirmed s) t = true
    /\ signature (next_state st t) = Some s
    /\ last t = Some success_alert.
Proof.
  intros t. subst t.
  run_compressTokens window st w h.
  all: unfold trace_of; cbn [fst snd].
  all: match goal with
       | |- existsb _ ?T = true -> _ =>
           try (assert (Hf : existsb
                               (shows_alert "Token successfully compressed.") T = false)
                  by (simpl_trace; reflexivity);
                rewrite Hf; intros [=]; fail)
       end.
  all: intros _; eexists; split; [|split; [|split]].
  all: try (simpl_trace; rewrite String.eqb_refl; simpl_trace;
            rewrite ?orb_true_r; reflexivity).
  - unfold next_state.
    repeat (progress (cbn [fold_left apply_setter walletKey tokens signature];
                      rewrite ?fold_left_app;
                      repeat match goal with
                        | Hs : forallb ?K ?seg = true
                          |- context [fold_left apply_setter ?seg ?s0] =>
                            rewrite (next_state_kind K seg s0 ltac:(kind_excl) Hs)
                        end)).
    reflexivity.
  - repeat first [reflexivity | apply last_app_nonempty | apply last_cons_nonempty].
  - unfold next_state.
    repeat (progress (cbn [fold_left apply_setter walletKey tokens signature];
                      rewrite ?fold_left_app;
                      repeat match goal with
                        | Hs : forallb ?K ?seg = true
                          |- context [fold_left apply_setter ?seg ?s0] =>
                            rewrite (next_state_kind K seg s0 ltac:(kind_excl) Hs)
                        end)).
    reflexivity.
  - repeat first [reflexivity | apply last_app_nonempty | apply last_cons_nonempty].
Qed.

(** X16. Every transaction [compressTokens] hands to the provider, the
    creation as well as the compression, goes to the injected Phantom
    handle, holds a single instruction, carries a blockhash answered by
    [getLatestBlockhash] in that run, and has as fee payer the public key
    of a keypair generated in that run, with which a transaction of the
    same instructions, blockhash and fee payer was signed in that run.
    Every [transaction.sign] call of the run is made with a keypair
    generated in that run, on a transaction whose fee payer is that
    keypair's public key. *)
Theorem compressTokens_transactions_paid_by_ephemeral_key (window : Window)
    (st : State) (w : W) (h : heap) :
  let t :=
    trace_of
      (compressTokens oracle TOKEN_PROGRAM_ID ASSOCIATED_TOKEN_PROGRAM_ID window st w h) in
  Forall (paid_by_ephemeral_key window t) t.
Proof.
  intros t. subst t.
  run_compressTokens window st w h.
  all: unfold trace_of; cbn [fst snd].
  all: name_trace.
  all: forall_trace ltac:(split; intros ? ? Hsub; discriminate Hsub).
  all: split; intros arg1 arg2 Hsub; cbn in Hsub; try discriminate Hsub.
  all: injection Hsub as Harg1 Harg2.
  all: first
         [ subst arg1 arg2; solve [split; [rewrite Ht; find_in|reflexivity]]
         | split; [subst arg1; reflexivity|]; split; [subst arg2; reflexivity|];
           eexists _, _, (set_signers [] arg2); subst arg1 arg2;
           split; [reflexivity|]; split; [reflexivity|]; rewrite Ht;
           split; [find_in|]; split; [find_in|]; split; [find_in|];
           repeat split ].
Qed.

(** X17. The candidates offered to the compression library's selection
    are the token accounts of the connected wallet for the mint, one
    descriptor per account of the RPC answer and in its order; each
    descriptor has the account's mint string as hash, the wallet key as
    owner, 1 as lamports, an address, no data, and the account's parsed
    info. *)
Theorem compressTokens_selects_among_accounts (window : Window) (st : State)
    (w : W) (h : heap) :
  let t :=
    trace_of
      (compressTokens oracle TOKEN_PROGRAM_ID ASSOCIATED_TOKEN_PROGRAM_ID window st w h) in
  Forall (selects_among_accounts st t) t.
Proof.
  intros t. subst t.
  run_compressTokens_fields window st w h.
  all: unfold trace_of; cbn [fst snd].
  all: name_trace.
  all: forall_trace ltac:(intros ? ? Hsel; discriminate Hsel).
  all: intros accs amt Hsel; cbn in Hsel; try discriminate Hsel.
  all: injection Hsel as <- <-.
  all: eexists _, _, _; split; [reflexivity|]; split; [rewrite Ht; find_in|].
  all: match goal with
       | Hf : forall ds, Ok ?a = Ok ds -> _ |- Forall2 _ _ ?a => exact (Hf a eq_refl)
       end.
Qed.

(** X18. The compress instruction is always built for the connected
    wallet compressing to itself: owner and destination are the wallet
    key of the render, the payer is a keypair generated in the run, and
    mint and source are keys [new PublicKey] returned in the run. *)
Theorem compressTokens_compresses_to_owner (window : Window) (st : State)
    (w : W) (h : heap) :
  let t :=
    trace_of
      (compressTokens oracle TOKEN_PROGRAM_ID ASSOCIATED_TOKEN_PROGRAM_ID window st w h) in
  Forall (compresses_to_owner st t) t.
Proof.
  intros t. subst t.
  run_compressTokens window st w h.
  all: unfold trace_of; cbn [fst snd].
  all: name_trace.
  all: forall_trace ltac:(intros ? Hcmp; discriminate Hcmp).
  all: intros prm Hcmp; cbn in Hcmp; try discriminate Hcmp.
  all: injection Hcmp as <-; cbn.
  all: split; [reflexivity|]; split; [reflexivity|].
  all: rewrite Ht; repeat split; eexists; try split; try reflexivity; find_in.
Qed.

(** X19. Without a connection [compressTokens] stays on the page: when the
    wallet key is null or no Phantom handle is found, a run from a token
    list of the component generates no keypair and makes no network call
    but, possibly, the log lookup of the [catch] block; it ends with the
    select-one alert, or with the failure alert after reporting "Wallet
    not connected". *)
Theorem compressTokens_requires_connection (window : Window) (st : State)
    (w : W) (h : heap) :
  wf h (tokens st) ->
  (walletKey st = None \/ solana window = Absent \/ solana window = Nullish
   \/ exists p, solana window = Injected p /\ isPhantom p = false) ->
  let t :=
    trace_of
      (compressTokens oracle TOKEN_PROGRAM_ID ASSOCIATED_TOKEN_PROGRAM_ID window st w h) in
  forallb (fun e => negb (is_network_but_logs e)) t = true
  /\ forallb (fun e => negb (is_KeypairGenerate e)) t = true
  /\ (last t = Some select_one_alert
      \/ (existsb (is_caught (Error "Wallet not connected")) t = true
          /\ last t = Some failure_alert)).
Proof.
  intros [_ Hin] Hnot t. subst t. revert Hnot.
  run_compressTokens_wf Hin window st w h.
  all: unfold trace_of; cbn [fst snd walletKey solana].
  all: intros Hnot.
  all: try (exfalso;
            destruct Hnot as [Hnot | [Hnot | [Hnot | (prv & Hnot & Hph)]]];
            try discriminate Hnot;
            injection Hnot as <-; discriminate Hph).
  all: clear Hnot.
  all: split; [simpl_trace; reflexivity|]; split; [simpl_trace; reflexivity|].
  all: first
         [ left; reflexivity
         | right; split;
           [ simpl_trace; reflexivity
           | solve [repeat first [ reflexivity | apply last_app_nonempty
                                 | apply last_cons_nonempty ]] ] ].
Qed.

(** X20. When the selection answers a first account that has no address,
    [compressTokens] throws "No source address found for compression."
    into its [catch] block: no compression instruction is built, no
    compression transaction is handed over, the error is reported and the
    failure alert is the last call. *)
Theorem compressTokens_missing_address_aborts (window : Window) (st : State)
    (w : W) (h : heap) :
  let run :=
    compressTokens oracle TOKEN_PROGRAM_ID ASSOCIATED_TOKEN_PROGRAM_ID window st w h in
  existsb selection_without_address (trace_of run) = true ->
  outcome_of run = Ok tt
  /\ existsb (is_caught (Error "No source address found for compression."))
       (trace_of run) = true
  /\ forallb (fun e => negb (is_compress_build e)) (trace_of run) = true
  /\ forallb (fun e => negb (is_compress_submit e)) (trace_of run) = true
  /\ last (trace_of run) = Some failure_alert.
Proof.
  intros run. subst run.
  run_compressTokens window st w h.
  all: simpl_trace.
  all: repeat match goal with
         | Ha : ca_address _ = _ |- _ => rewrite Ha; clear Ha
         end.
  all: simpl_trace.
  all: try (intros [=]; fail).
  all: intros _; repeat split.
  all: repeat first [reflexivity | apply last_app_nonempty | apply last_cons_nonempty].
Qed.

(** X21. What is handed to the provider is what was built: a transaction
    submitted by [compressTokens] holds either the instruction the
    compression library returned in that run, or the creation instruction
    built from the ephemeral payer's key, the wallet key, the mint and the
    two program ids, in the order the call site passes them; that mint is
    the key [new PublicKey] answered in that run, the one the associated
    address was derived for together with the wallet key, and
    [getAccountInfo] answered [null] for the derived address. *)
Theorem compressTokens_submits_what_was_built (window : Window) (st : State)
    (w : W) (h : heap) :
  let t :=
    trace_of
      (compressTokens oracle TOKEN_PROGRAM_ID ASSOCIATED_TOKEN_PROGRAM_ID window st w h) in
  Forall (submits_what_was_built TOKEN_PROGRAM_ID ASSOCIATED_TOKEN_PROGRAM_ID st t) t.
Proof.
  intros t. subst t.
  run_compressTokens window st w h.
  all: unfold trace_of; cbn [fst snd].
  all: name_trace.
  all: forall_trace ltac:(intros ? ? Hsub; discriminate Hsub).
  all: intros prv txn Hsub; cbn in Hsub; try discriminate Hsub.
  all: injection Hsub as <- <-.
  all: first
         [ left; eexists _, _; split; [reflexivity|]; rewrite Ht; find_in
         | right; eexists _, _, _, _, _; split; [reflexivity|]; split; [reflexivity|];
           rewrite Ht; split; [find_in|];
           split; [simpl_trace; reflexivity|];
           split; [find_in|]; split; find_in ].
Qed.

Ltac run_compressTokens_one Hin Hsel Htok window st w h :=
  match goal with
  | |- context [compressTokens oracle ?T ?A window st w h] =>
      let x := fresh "x" in
      let Hx := fresh "Hx" in
      remember (compressTokens oracle T A window st w h) as x eqn:Hx;
      revert Hx;
      unfold compressTokens; unfold bind at 1;
      rewrite (array_filter_selected (tokens st) w h Hin), Hsel;
      destruct window as [[| |[? []]]];
      destruct st as [[?|] ? ?];
      unfold compressTokens_try, getProvider;
      unfold_monad; cbn;
      repeat run_step;
      intros ->;
      first [ discriminate Htok | injection Htok as -> | idtac ]
  end.

(** X22. The run is about the ticked record and the connected wallet:
    when exactly one record of the list is ticked, the associated address
    is derived for (a key made from that record's mint address, the
    wallet key), with [false] and the two program ids in the order of the
    call site; the account looked up is the address that derivation
    returned; the token accounts are queried for the wallet key and that
    mint; and the compress instruction is built for that mint. *)
Theorem compressTokens_about_ticked_mint (window : Window) (st : State)
    (r : nat) (token : TokenInfo) (w : W) (h : heap) :
  wf h (tokens st) ->
  List.filter (is_selected h) (tokens st) = [r] ->
  h !! r = Some token ->
  let t :=
    trace_of
      (compressTokens oracle TOKEN_PROGRAM_ID ASSOCIATED_TOKEN_PROGRAM_ID window st w h) in
  Forall (about_ticked_mint TOKEN_PROGRAM_ID ASSOCIATED_TOKEN_PROGRAM_ID st token t) t.
Proof.
  intros [_ Hin] Hsel Htok t. subst t.
  run_compressTokens_one Hin Hsel Htok window st w h.
  all: unfold trace_of; cbn [fst snd].
  all: name_trace.
  all: forall_trace
         ltac:(split; [|split; [|split]];
               [ intros ? ? ? ? ? Hq | intros ? Hq | intros ? ? Hq | intros ? Hq ];
               discriminate Hq).
  all: split; [|split; [|split]].
  all: try (intros ? ? ? ? ? Hq; cbn in Hq;
            first [ discriminate Hq
                  | injection Hq as <- <- <- <- <-;
                    repeat split; rewrite Ht; find_in ]).
  all: try (intros ? ? Hq; cbn in Hq;
            first [ discriminate Hq
                  | injection Hq as <- <-;
                    split; [reflexivity|]; eexists; split; [reflexivity|];
                    rewrite Ht; find_in ]).
  all: intros ? Hq; cbn in Hq;
    first [ discriminate Hq
          | injection Hq as <-; cbn; rewrite Ht;
            first [ find_in | eexists _, _; find_in ] ].
Qed.

End Properties.

(** * The handlers on concrete inputs *)

(** C7. First failing run: the provider returns the signature of the
    compression transaction, [setSignature] is called with it, and the
    confirmation fails.  The [catch] block reads the [signature] of the
    current render, which is still [null]: no [getTransaction] call is
    made, for that signature or any other, before the failure alert. *)
Theorem compressTokens_stale_signature :
  let run :=
    compressTokens (scripted confirm_fails) TOKEN_PROGRAM ASSOCIATED_TOKEN_PROGRAM
      with_phantom connected tt store2 in
  outcome_of run = Ok tt
  /\ In (Ev (SetSignature (Some "sig-compress")) tt) (trace_of run)
  /\ In (Ev (ConfirmTransaction "sig-compress")
            (Err (Error "Transaction was not confirmed")))
        (trace_of run)
  /\ existsb (fetches_logs_of "sig-compress") (trace_of run) = false
  /\ forallb (fun e => negb (is_getTransaction e)) (trace_of run) = true
  /\ last (trace_of run) = Some failure_alert
  /\ signature (next_state connected (trace_of run)) = Some "sig-compress".
Proof.
  vm_compute. repeat split; auto 30.
Qed.

(** C6, as stated, fails: with no provider, and with a provider whose
    disconnect request is rejected, the wallet key and the token list of
    the next render are those of the connected render. *)
Lemma disconnectWallet_not_unconditional :
  let st1 :=
    next_state connected
      (trace_of (disconnectWallet (scripted happy) without_provider tt store2)) in
  let st2 :=
    next_state connected
      (trace_of (disconnectWallet (scripted disconnect_refused) with_phantom tt store2)) in
  ~ (walletKey st1 = None /\ tokens st1 = [])
  /\ ~ (walletKey st2 = None /\ tokens st2 = []).
Proof.
  vm_compute. split; intros [H _]; discriminate H.
Qed.


(** ** Instances of the theorems *)

Lemma compressTokens_requires_one_selection_witness :
  let st := {| walletKey := Some alice; tokens := [1]; signature := None |} in
  let run :=
    compressTokens (scripted happy) TOKEN_PROGRAM ASSOCIATED_TOKEN_PROGRAM
      with_phantom st tt store2 in
  outcome_of run = Ok tt
  /\ trace_of run = [select_one_alert]
  /\ forallb (fun e => negb (is_network e)) (trace_of run) = true
  /\ next_state st (trace_of run) = st
  /\ heap_of run = store2.
Proof.
  apply (compressTokens_requires_one_selection (scripted happy)
           TOKEN_PROGRAM ASSOCIATED_TOKEN_PROGRAM with_phantom
           {| walletKey := Some alice; tokens := [1]; signature := None |} tt store2).
  - split.
    + apply NoDup_singleton.
    + repeat constructor.
  - vm_compute. lia.
Defined.

Lemma compressTokens_creates_account_first_witness :
  let t :=
    trace_of (compressTokens (scripted happy) TOKEN_PROGRAM ASSOCIATED_TOKEN_PROGRAM
                with_phantom connected tt store2) in
  let t' :=
    trace_of (compressTokens (scripted account_exists) TOKEN_PROGRAM
                ASSOCIATED_TOKEN_PROGRAM with_phantom connected tt store2) in
  (exists k ata r1,
     t !! k = Some (Ev (GetAccountInfo ata) (Ok None))
     /\ t !! (k + 1) = Some (Ev GetLatestBlockhash r1)
     /\ forall blockhash, r1 = Ok blockhash ->
        exists tx payer r2,
          t !! (k + 2) = Some (Ev (TransactionSign tx payer) r2)
          /\ is_create_tx tx = true
          /\ recentBlockhash tx = Some blockhash
          /\ feePayer tx = Some (kp_publicKey payer)
          /\ (r2 = Ok tt ->
              exists provider r3,
                t !! (k + 3)
                = Some (Ev (SignAndSendTransaction provider (set_signers [payer] tx)) r3)
                /\ forall sig, r3 = Ok sig ->
                   exists r4, t !! (k + 4) = Some (Ev (ConfirmTransaction sig) r4)))
  /\ (exists k i j tx payer provider sig,
      k < i /\ i < j /\ j < 19
      /\ t !! k = Some (Ev (TransactionSign tx payer) (Ok tt))
      /\ is_create_tx tx = true
      /\ t !! i = Some (Ev (SignAndSendTransaction provider (set_signers [payer] tx))
                           (Ok sig))
      /\ t !! j = Some (Ev (ConfirmTransaction sig) (Ok tt)))
  /\ forallb (fun e => negb (is_create_submit e)) t' = true.
Proof.
  pose proof (compressTokens_creates_account_first (scripted happy)
                TOKEN_PROGRAM ASSOCIATED_TOKEN_PROGRAM with_phantom connected
                tt store2) as (Hsteps & Horder & _).
  pose proof (compressTokens_creates_account_first (scripted account_exists)
                TOKEN_PROGRAM ASSOCIATED_TOKEN_PROGRAM with_phantom connected
                tt store2) as (_ & _ & Hnone).
  split; [|split].
  - apply Hsteps. vm_compute. reflexivity.
  - eapply Horder.
    + vm_compute. reflexivity.
    + vm_compute. reflexivity.
    + vm_compute. reflexivity.
  - apply Hnone. vm_compute. reflexivity.
Defined.

Lemma compressTokens_empty_selection_aborts_witness :
  let run :=
    compressTokens (scripted nothing_selected) TOKEN_PROGRAM ASSOCIATED_TOKEN_PROGRAM
      with_phantom connected tt store2 in
  outcome_of run = Ok tt
  /\ existsb (is_caught (Error "No input accounts found for compression."))
       (trace_of run) = true
  /\ forallb (fun e => negb (is_compress_build e)) (trace_of run) = true
  /\ forallb (fun e => negb (is_compress_submit e)) (trace_of run) = true
  /\ last (trace_of run) = Some failure_alert.
Proof.
  apply (compressTokens_empty_selection_aborts (scripted nothing_selected)
           TOKEN_PROGRAM ASSOCIATED_TOKEN_PROGRAM with_phantom connected tt store2).
  vm_compute. reflexivity.
Defined.

Lemma fetchTokens_maps_accounts_witness :
  let run := fetchTokens (scripted happy) TOKEN_PROGRAM alice tt store2 in
  let st' := next_state connected (trace_of run) in
  outcome_of run = Ok tt
  /\ length (tokens st') = 2
  /\ records (heap_of run) (tokens st')
     = [ Some {| mintAddress := "mintA"; amount := "7"; selected := false |};
         Some {| mintAddress := "mintB"; amount := "250"; selected := false |} ]
  /\ Forall (fun r => 2 <= r) (tokens st')
  /\ (forall r, r < 2 -> heap_of run !! r = store2 !! r).
Proof.
  exact (fetchTokens_maps_accounts (scripted happy) TOKEN_PROGRAM alice
           [account_A; account_B] connected tt tt store2 eq_refl).
Defined.

Lemma handleCheckboxChange_flips_only_witness :
  let run := handleCheckboxChange (scripted happy) connected 1 tt store2 in
  let st' := next_state connected (trace_of run) in
  outcome_of run = Ok tt
  /\ length (tokens st') = 2
  /\ (exists t,
         token_at store2 [0; 1] 1 = Some t
         /\ token_at (heap_of run) (tokens st') 1
            = Some {| mintAddress := mintAddress t; amount := amount t;
                      selected := negb (selected t) |})
  /\ (forall j, j <> 1 ->
        token_at (heap_of run) (tokens st') j = token_at store2 [0; 1] j).
Proof.
  apply (handleCheckboxChange_flips_only (scripted happy) connected 1 tt store2).
  - split.
    + apply NoDup_cons. split; [|apply NoDup_singleton].
      intros H. apply list_elem_of_singleton in H. discriminate H.
    + repeat constructor.
  - cbn. lia.
Defined.

Lemma disconnectWallet_clears_on_success_witness :
  let run := disconnectWallet (scripted happy) with_phantom tt store2 in
  let st' := next_state connected (trace_of run) in
  outcome_of run = Ok tt /\ walletKey st' = None /\ tokens st' = [].
Proof.
  exact (disconnectWallet_clears_on_success (scripted happy) with_phantom phantom
           connected tt tt store2 eq_refl eq_refl eq_refl).
Defined.

Lemma fetchTokens_failure_keeps_list_witness :
  let e := Error "503 Service Unavailable" in
  let run := fetchTokens (scripted rpc_down) TOKEN_PROGRAM alice tt store2 in
  outcome_of run = Ok tt
  /\ trace_of run
     = [Ev (GetParsedTokenAccountsByOwner alice (ByProgramId TOKEN_PROGRAM)) (Err e);
        Ev (ConsoleLog "Error fetching tokens:" (Some (DError e))) tt]
  /\ next_state connected (trace_of run) = connected
  /\ heap_of run = store2.
Proof.
  exact (fetchTokens_failure_keeps_list (scripted rpc_down) TOKEN_PROGRAM alice
           (Error "503 Service Unavailable") connected tt tt store2 eq_refl).
Defined.

Lemma connectWallet_without_provider_witness :
  let install := Ev (WindowOpen "https://phantom.app/" "_blank") tt in
  let window := {| solana := Injected other_wallet |} in
  let found := getProvider (scripted happy) window tt [] in
  let run := connectWallet (scripted happy) TOKEN_PROGRAM window tt [] in
  (outcome_of found = Ok None /\ trace_of found = [install])
  /\ outcome_of run = Ok tt
  /\ trace_of run = [install]
  /\ forallb (fun e => negb (is_network e)) (trace_of run) = true
  /\ next_state initial_state (trace_of run) = initial_state
  /\ heap_of run = [].
Proof.
  apply (connectWallet_without_provider (scripted happy) TOKEN_PROGRAM
           {| solana := Injected other_wallet |} initial_state tt []).
  right. right. exists other_wallet. split; reflexivity.
Defined.

Lemma compressTokens_fixed_amount_witness :
  let t :=
    trace_of (compressTokens (scripted happy) TOKEN_PROGRAM ASSOCIATED_TOKEN_PROGRAM
                with_phantom connected tt store2) in
  Forall (amounts_as_claimed t) t
  /\ exists accounts r,
       In (Ev (SelectMinCompressedTokenAccountsForTransfer accounts 100000000%Z) r) t
       /\ exists p r',
            In (Ev (CompressedTokenProgram_compress p) r') t
            /\ cp_amount p = 100000000%Z.
Proof.
  destruct (compressTokens_fixed_amount (scripted happy) TOKEN_PROGRAM
              ASSOCIATED_TOKEN_PROGRAM with_phantom connected tt store2)
    as [Hall Hcalls].
  split; [exact Hall|]. apply Hcalls.
  - split.
    + apply NoDup_cons. split; [|apply NoDup_singleton].
      intros H. apply list_elem_of_singleton in H. discriminate H.
    + repeat constructor.
  - reflexivity.
  - discriminate.
  - exists phantom. split; reflexivity.
  - vm_compute. reflexivity.
  - vm_compute. reflexivity.
  - vm_compute. reflexivity.
Defined.

(** The amount of a descriptor is read from [uiAmountString]: the account
    with raw amount 7000000 and 6 decimals is offered with amount 7, against
    a target of 10^8. *)
Example compressTokens_descriptor_amounts :
  let t :=
    trace_of (compressTokens (scripted happy) TOKEN_PROGRAM ASSOCIATED_TOKEN_PROGRAM
                with_phantom connected tt store2) in
  ta_amount (tokenAmount (parsed_info account_A)) = "7000000"
  /\ exists e accounts,
       t !! 14 = Some e
       /\ selection_of e = Some (accounts, 100000000%Z)
       /\ map (fun d => ca_amount (compressedAccount d)) accounts = [7%Z; 250%Z].
Proof.
  split; [reflexivity|]. eexists _, _. vm_compute. repeat split.
Qed.

(** The store matters: were a record listed twice, ticking one row would
    tick the other.  The component never builds such a list
    ([wf_preserved]). *)
Example handleCheckboxChange_shared_record :
  let st := {| walletKey := Some alice; tokens := [0; 0]; signature := None |} in
  let run := handleCheckboxChange (scripted happy) st 0 tt store2 in
  token_at store2 [0; 0] 1
  = Some {| mintAddress := "mintA"; amount := "7"; selected := true |}
  /\ token_at (heap_of run) (tokens (next_state st (trace_of run))) 1
     = Some {| mintAddress := "mintA"; amount := "7"; selected := false |}.
Proof. vm_compute. split; reflexivity. Qed.

(** ** Instances of the further properties *)

Lemma wf_store2 : wf store2 [0; 1].
Proof.
  split.
  - apply NoDup_cons. split; [|apply NoDup_singleton].
    intros H. apply list_elem_of_singleton in H. discriminate H.
  - repeat constructor.
Defined.

Lemma connectWallet_sets_key_and_fetches_once_witness :
  let run := connectWallet (scripted happy) TOKEN_PROGRAM with_phantom tt [] in
  let st' := next_state initial_state (trace_of run) in
  outcome_of run = Ok tt
  /\ walletKey st' = Some alice
  /\ signature st' = None
  /\ (exists r rest,
        trace_of run
        = Ev (ProviderConnect phantom) (Ok alice)
            :: Ev (SetWalletKey (Some alice)) tt
            :: Ev (ConsoleLog "Connected with publicKey:" (Some (DString "alice"))) tt
            :: Ev (GetParsedTokenAccountsByOwner alice (ByProgramId TOKEN_PROGRAM)) r
            :: rest
        /\ forallb (fun e => negb (is_network e)) rest = true)
  /\ forallb (fun e => negb (is_WindowOpen e)) (trace_of run) = true.
Proof.
  exact (connectWallet_sets_key_and_fetches_once (scripted happy) TOKEN_PROGRAM
           with_phantom phantom alice initial_state tt tt [] eq_refl eq_refl eq_refl).
Defined.

Lemma connectWallet_rejected_keeps_state_witness :
  let e := Error "User rejected the request." in
  let run := connectWallet (scripted connect_refused) TOKEN_PROGRAM with_phantom tt [] in
  outcome_of run = Ok tt
  /\ trace_of run
     = [Ev (ProviderConnect phantom) (Err e);
        Ev (ConsoleLog "Connection error:" (Some (DError e))) tt]
  /\ next_state initial_state (trace_of run) = initial_state
  /\ heap_of run = [].
Proof.
  exact (connectWallet_rejected_keeps_state (scripted connect_refused) TOKEN_PROGRAM
           with_phantom phantom (Error "User rejected the request.") initial_state
           tt tt [] eq_refl eq_refl eq_refl).
Defined.

Lemma useEffect_mount_registers_or_redirects_witness :
  trace_of (useEffect_mount (scripted happy) with_phantom tt [])
  = [Ev (ProviderOn phantom "connect") tt; Ev (ProviderOn phantom "disconnect") tt;
     Ev (ProviderOn phantom "accountChange") tt]
  /\ trace_of (useEffect_mount (scripted happy) without_provider tt [])
     = [Ev (WindowOpen "https://phantom.app/" "_blank") tt].
Proof.
  split.
  - apply (useEffect_mount_registers_or_redirects (scripted happy) with_phantom
             initial_state tt []); reflexivity.
  - apply (useEffect_mount_registers_or_redirects (scripted happy) without_provider
             initial_state tt []).
    intros p H. discriminate H.
Defined.

Lemma handleCheckboxChange_twice_restores_witness :
  let run1 := handleCheckboxChange (scripted happy) connected 0 tt store2 in
  let st1 := next_state connected (trace_of run1) in
  let run2 := handleCheckboxChange (scripted happy) st1 0 tt (heap_of run1) in
  outcome_of run2 = Ok tt
  /\ heap_of run2 = store2
  /\ tokens (next_state st1 (trace_of run2)) = [0; 1].
Proof.
  apply (handleCheckboxChange_twice_restores (scripted happy) connected 0 tt tt store2).
  - exact wf_store2.
  - cbn. lia.
Defined.

Lemma handleCheckboxChange_out_of_range_throws_witness :
  let run := handleCheckboxChange (scripted happy) connected 2 tt store2 in
  (exists msg, outcome_of run = Err (TypeError msg))
  /\ trace_of run = []
  /\ heap_of run = store2.
Proof.
  apply (handleCheckboxChange_out_of_range_throws (scripted happy) connected 2 tt store2).
  cbn. lia.
Defined.

Lemma fetchTokens_then_compressTokens_asks_selection_witness :
  let fetched := fetchTokens (scripted happy) TOKEN_PROGRAM alice tt store2 in
  let st' := next_state connected (trace_of fetched) in
  let run :=
    compressTokens (scripted happy) TOKEN_PROGRAM ASSOCIATED_TOKEN_PROGRAM with_phantom
      st' tt (heap_of fetched) in
  outcome_of run = Ok tt /\ trace_of run = [select_one_alert].
Proof.
  exact (fetchTokens_then_compressTokens_asks_selection (scripted happy) TOKEN_PROGRAM
           ASSOCIATED_TOKEN_PROGRAM alice [account_A; account_B] with_phantom connected
           tt tt tt store2 eq_refl).
Defined.

Lemma render_after_fetchTokens_witness :
  let fetched := fetchTokens (scripted happy) TOKEN_PROGRAM alice tt store2 in
  render (heap_of fetched) (next_state connected (trace_of fetched))
  = Some (Div None
            [Div None
               [Button ClickDisconnect "Disconnect Wallet";
                Div None
                  [Div (Some 0)
                     [Checkbox false (ClickCheckbox 0);
                      Text "mintA"; Text " - "; Text "7"];
                   Div (Some 1)
                     [Checkbox false (ClickCheckbox 1);
                      Text "mintB"; Text " - "; Text "250"]];
                Button ClickCompress "Compress Tokens"]]).
Proof.
  apply (render_after_fetchTokens (scripted happy) TOKEN_PROGRAM alice
           [account_A; account_B] connected tt tt store2 eq_refl).
  discriminate.
Defined.

Lemma render_rows_after_handleCheckboxChange_witness :
  let run := handleCheckboxChange (scripted happy) connected 1 tt store2 in
  render_rows (heap_of run) 0 (tokens (next_state connected (trace_of run)))
  = Some [Div (Some 0)
            [Checkbox true (ClickCheckbox 0); Text "mintA"; Text " - "; Text "7"];
          Div (Some 1)
            [Checkbox true (ClickCheckbox 1); Text "mintB"; Text " - "; Text "250"]].
Proof.
  apply (render_rows_after_handleCheckboxChange (scripted happy) connected 1
           [Div (Some 0)
              [Checkbox true (ClickCheckbox 0); Text "mintA"; Text " - "; Text "7"];
            Div (Some 1)
              [Checkbox false (ClickCheckbox 1); Text "mintB"; Text " - "; Text "250"]]
           tt store2).
  - exact wf_store2.
  - cbn. lia.
  - reflexivity.
Defined.

Lemma render_wires_valid_actions_witness :
  exists tree,
    render store2 connected = Some tree
    /\ actions_of tree
       = [ClickDisconnect; ClickCheckbox 0; ClickCheckbox 1; ClickCompress]
    /\ forall i, In (ClickCheckbox i) (actions_of tree) ->
         outcome_of (handleCheckboxChange (scripted happy) connected i tt store2) = Ok tt.
Proof.
  exact (render_wires_valid_actions (scripted happy) connected tt store2 wf_store2).
Defined.

Lemma compressTokens_failure_looks_up_stored_signature_witness :
  existsb (fetches_logs_of "sig-earlier")
    (trace_of (compressTokens (scripted confirm_fails) TOKEN_PROGRAM
                 ASSOCIATED_TOKEN_PROGRAM with_phantom after_submission tt store2))
  = true.
Proof.
  apply (compressTokens_failure_looks_up_stored_signature (scripted confirm_fails)
           TOKEN_PROGRAM ASSOCIATED_TOKEN_PROGRAM with_phantom after_submission
           tt store2 "sig-earlier").
  - reflexivity.
  - discriminate.
  - vm_compute. reflexivity.
Defined.

Lemma compressTokens_returns_with_one_alert_witness :
  let run :=
    compressTokens (scripted happy) TOKEN_PROGRAM ASSOCIATED_TOKEN_PROGRAM with_phantom
      connected tt store2 in
  outcome_of run = Ok tt
  /\ length (List.filter is_alert (trace_of run)) = 1
  /\ (last (trace_of run) = Some select_one_alert
      \/ last (trace_of run) = Some success_alert
      \/ last (trace_of run) = Some failure_alert).
Proof.
  exact (compressTokens_returns_with_one_alert (scripted happy) TOKEN_PROGRAM
           ASSOCIATED_TOKEN_PROGRAM with_phantom connected tt store2 wf_store2).
Defined.

Lemma compressTokens_success_only_after_confirmation_witness :
  let t :=
    trace_of (compressTokens (scripted happy) TOKEN_PROGRAM ASSOCIATED_TOKEN_PROGRAM
                with_phantom connected tt store2) in
  exists s,
    existsb (compress_submitted s) t = true
    /\ existsb (confirmed s) t = true
    /\ signature (next_state connected t) = Some s
    /\ last t = Some success_alert.
Proof.
  apply (compressTokens_success_only_after_confirmation (scripted happy) TOKEN_PROGRAM
           ASSOCIATED_TOKEN_PROGRAM with_phantom connected tt store2).
  vm_compute. reflexivity.
Defined.

Lemma compressTokens_requires_connection_witness :
  let t :=
    trace_of (compressTokens (scripted happy) TOKEN_PROGRAM ASSOCIATED_TOKEN_PROGRAM
                without_provider connected tt store2) in
  forallb (fun e => negb (is_network_but_logs e)) t = true
  /\ forallb (fun e => negb (is_KeypairGenerate e)) t = true
  /\ (last t = Some select_one_alert
      \/ (existsb (is_caught (Error "Wallet not connected")) t = true
          /\ last t = Some failure_alert)).
Proof.
  apply (compressTokens_requires_connection (scripted happy) TOKEN_PROGRAM
           ASSOCIATED_TOKEN_PROGRAM without_provider connected tt store2 wf_store2).
  right. left. reflexivity.
Defined.

Lemma compressTokens_missing_address_aborts_witness :
  let run :=
    compressTokens (scripted address_missing) TOKEN_PROGRAM ASSOCIATED_TOKEN_PROGRAM
      with_phantom connected tt store2 in
  outcome_of run = Ok tt
  /\ existsb (is_caught (Error "No source address found for compression."))
       (trace_of run) = true
  /\ forallb (fun e => negb (is_compress_build e)) (trace_of run) = true
  /\ forallb (fun e => negb (is_compress_submit e)) (trace_of run) = true
  /\ last (trace_of run) = Some failure_alert.
Proof.
  apply (compressTokens_missing_address_aborts (scripted address_missing)
           TOKEN_PROGRAM ASSOCIATED_TOKEN_PROGRAM with_phantom connected tt store2).
  vm_compute. reflexivity.
Defined.

(** In the run where everything succeeds the 20th event is the hand-over
    of the compression transaction and the 19th the local signing. *)
Lemma compressTokens_transactions_paid_by_ephemeral_key_witness :
  let t :=
    trace_of (compressTokens (scripted happy) TOKEN_PROGRAM ASSOCIATED_TOKEN_PROGRAM
                with_phantom connected tt store2) in
  (exists e p tx,
      t !! 19 = Some e
      /\ submit_of e = Some (p, tx)
      /\ solana with_phantom = Injected p
      /\ length (instructions tx) = 1
      /\ exists payer blockhash signed,
           recentBlockhash tx = Some blockhash
           /\ feePayer tx = Some (kp_publicKey payer)
           /\ In (Ev KeypairGenerate payer) t
           /\ In (Ev GetLatestBlockhash (Ok blockhash)) t
           /\ In (Ev (TransactionSign signed payer) (Ok tt)) t
           /\ instructions signed = instructions tx
           /\ recentBlockhash signed = recentBlockhash tx
           /\ feePayer signed = feePayer tx)
  /\ (exists e tx signer,
        t !! 18 = Some e
        /\ sign_of e = Some (tx, signer)
        /\ In (Ev KeypairGenerate signer) t
        /\ feePayer tx = Some (kp_publicKey signer)).
Proof.
  pose proof (compressTokens_transactions_paid_by_ephemeral_key (scripted happy)
                TOKEN_PROGRAM ASSOCIATED_TOKEN_PROGRAM with_phantom connected tt store2)
    as H.
  cbv zeta in H. split.
  - eexists _, _, _. split; [reflexivity|]. split; [reflexivity|].
    exact (proj1 (Forall_lookup_1 _ _ 19 _ H eq_refl) _ _ eq_refl).
  - eexists _, _, _. split; [reflexivity|]. split; [reflexivity|].
    exact (proj2 (Forall_lookup_1 _ _ 18 _ H eq_refl) _ _ eq_refl).
Defined.

(** In the run where everything succeeds the 7th event is the hand-over of
    the creation transaction, built for the mint of the ticked record. *)
Lemma compressTokens_submits_what_was_built_witness :
  let t :=
    trace_of (compressTokens (scripted happy) TOKEN_PROGRAM ASSOCIATED_TOKEN_PROGRAM
                with_phantom connected tt store2) in
  exists e p tx,
    t !! 6 = Some e
    /\ submit_of e = Some (p, tx)
    /\ submits_what_was_built TOKEN_PROGRAM ASSOCIATED_TOKEN_PROGRAM connected t e
    /\ exists payer mint,
         instructions tx
         = [createAssociatedTokenAccountInstruction
              (kp_publicKey payer) alice mint ASSOCIATED_TOKEN_PROGRAM TOKEN_PROGRAM]
         /\ In (Ev (NewPublicKey "mintA") (Ok mint)) t.
Proof.
  pose proof (compressTokens_submits_what_was_built (scripted happy)
                TOKEN_PROGRAM ASSOCIATED_TOKEN_PROGRAM with_phantom connected tt store2)
    as H.
  cbv zeta in H.
  eexists _, _, _. split; [reflexivity|]. split; [reflexivity|]. split.
  - exact (Forall_lookup_1 _ _ 6 _ H eq_refl).
  - eexists _, _. split; [reflexivity|]. vm_compute. tauto.
Defined.

Lemma compressTokens_about_ticked_mint_witness :
  let t :=
    trace_of (compressTokens (scripted happy) TOKEN_PROGRAM ASSOCIATED_TOKEN_PROGRAM
                with_phantom connected tt store2) in
  Forall (about_ticked_mint TOKEN_PROGRAM ASSOCIATED_TOKEN_PROGRAM connected
            {| mintAddress := "mintA"; amount := "7"; selected := true |} t) t.
Proof.
  apply (compressTokens_about_ticked_mint (scripted happy) TOKEN_PROGRAM
           ASSOCIATED_TOKEN_PROGRAM with_phantom connected 0
           {| mintAddress := "mintA"; amount := "7"; selected := true |} tt store2).
  - exact wf_store2.
  - reflexivity.
  - reflexivity.
Defined.

Lemma wf_preserved_witness :
  let run :=
    handle (scripted happy) TOKEN_PROGRAM ASSOCIATED_TOKEN_PROGRAM ClickConnect
      with_phantom initial_state tt [] in
  wf (heap_of run) (tokens (next_state initial_state (trace_of run))).
Proof.
  apply (wf_preserved (scripted happy) TOKEN_PROGRAM ASSOCIATED_TOKEN_PROGRAM).
  apply reachable_next. apply reachable_first.
Defined.

Lemma compressTokens_looks_up_render_signature_witness :
  existsb (fetches_logs_of "sig-earlier")
    (trace_of (compressTokens (scripted confirm_fails) TOKEN_PROGRAM
                 ASSOCIATED_TOKEN_PROGRAM with_phantom after_submission tt store2))
  = true
  /\ signature after_submission = Some "sig-earlier".
Proof.
  assert (H : existsb (fetches_logs_of "sig-earlier")
                (trace_of (compressTokens (scripted confirm_fails) TOKEN_PROGRAM
                             ASSOCIATED_TOKEN_PROGRAM with_phantom after_submission
                             tt store2)) = true)
    by (vm_compute; reflexivity).
  split; [exact H|].
  exact (compressTokens_looks_up_render_signature (scripted confirm_fails)
           TOKEN_PROGRAM ASSOCIATED_TOKEN_PROGRAM with_phantom after_submission
           tt store2 "sig-earlier" H).
Defined.

Lemma disconnectWallet_otherwise_unchanged_witness :
  next_state connected
    (trace_of (disconnectWallet (scripted disconnect_refused) with_phantom tt store2))
  = connected.
Proof.
  apply (disconnectWallet_otherwise_unchanged (scripted disconnect_refused)
           with_phantom connected tt store2).
  right. right. right.
  exists phantom, (Error "User rejected the request."), tt.
  repeat split.
Defined.

(** The properties stated of every selection, compress and hand-over call
    speak of calls that do occur: the run where everything succeeds holds
    two hand-overs, one selection and one compress call. *)
Example compressTokens_happy_run_calls :
  let t :=
    trace_of (compressTokens (scripted happy) TOKEN_PROGRAM ASSOCIATED_TOKEN_PROGRAM
                with_phantom connected tt store2) in
  length (omap submit_of t) = 2
  /\ length (omap selection_of t) = 1
  /\ length (omap compress_of t) = 1.
Proof. vm_compute. repeat split. Qed.
